(** * wagtail.wagtailcore.blocks.struct_block

    A shallow embedding of [BaseStructBlock] and [StructValue] and the
    properties of their operations.

    Python objects are dynamically typed: one type [V] stands for every value
    a child block consumes or produces (raw, python-level, stored), with a
    distinguished [PyNone].  A plain [dict] is a [gmap string _]; a
    [collections.OrderedDict] is an association list whose keys are distinct
    and whose order is insertion order. *)

From stdpp Require Import gmap strings list fin_maps.

Set Warnings "-register-all".

(** ** Exceptions *)

(** [django.core.exceptions.ValidationError(message, params=...)]; an
    [ErrorList] is a list of them, and [ErrorList.as_data()] is that list. *)
Inductive ValidationError : Type :=
  | MkValidationError (message : string)
                      (params : option (gmap string (list ValidationError))).

Abbreviation ErrorList := (list ValidationError).

Definition ve_message (e : ValidationError) : string :=
  match e with MkValidationError m _ => m end.

Definition ve_params (e : ValidationError) : option (gmap string ErrorList) :=
  match e with MkValidationError _ p => p end.

Inductive exn : Type :=
  | TypeError (msg : string)
  | KeyError (key : string)
  | AttributeError (msg : string)
  | ValidationErr (e : ValidationError).

(** The outcome of a call that either returns or raises. *)
Inductive outcome (A : Type) : Type :=
  | Returns (a : A)
  | Raises (e : exn).
Arguments Returns {A} a.
Arguments Raises {A} e.

#[export] Instance outcome_ret : MRet outcome := fun A a => Returns a.
#[export] Instance outcome_bind : MBind outcome := fun A B k m =>
  match m with
  | Returns a => k a
  | Raises e => Raises e
  end.

(** ** Django's safe strings

    [format_html] passes every argument through [conditional_escape], which
    leaves a [SafeText] alone and escapes anything else. *)
Inductive text : Type :=
  | SafeText (s : string)
  | PlainText (s : string).

(** Truth value of a string: non-empty. *)
Definition str_truthy (s : string) : bool :=
  match s with EmptyString => false | String _ _ => true end.

Definition dquote : string := String (Ascii.ascii_of_nat 34) EmptyString.

(** ** Ordered dictionaries

    [collections.OrderedDict]: assignment to an existing key replaces the
    value where it stands, assignment to a new key appends. *)
Abbreviation odict A := (list (string * A)).

Fixpoint od_set {A} (k : string) (a : A) (d : odict A) : odict A :=
  match d with
  | [] => [(k, a)]
  | (k', a') :: r =>
      if decide (k = k') then (k', a) :: r else (k', a') :: od_set k a r
  end.

Fixpoint od_get {A} (k : string) (d : odict A) : option A :=
  match d with
  | [] => None
  | (k', a) :: r => if decide (k = k') then Some a else od_get k r
  end.

(** [OrderedDict(pairs)] *)
Definition od_of_list {A} (pairs : list (string * A)) : odict A :=
  foldl (fun d '(k, a) => od_set k a d) [] pairs.

(** [d[k]] *)
Definition od_getitem {A} (k : string) (d : odict A) : outcome A :=
  match od_get k d with
  | Some a => Returns a
  | None => Raises (KeyError k)
  end.

(** [dict(pairs)]: a later pair overwrites an earlier one of the same key. *)
Definition py_dict {A} (pairs : list (string * A)) : gmap string A :=
  foldl (fun m '(k, a) => <[k := a]> m) ∅ pairs.

(** Truth value of a dict: non-empty. *)
Definition dict_truthy {A} (m : gmap string A) : bool :=
  match map_to_list m with [] => false | _ :: _ => true end.

(** Iteration order of a plain dict: fixed by the set of keys, unrelated to
    the order of insertion. *)
Definition dict_keys {A} (m : gmap string A) : list string := (map_to_list m).*1.

(** What the block code asks of a value: [value.get(name)] and
    [value.items()].  Both a plain dict and a [StructValue] provide them. *)
Class PyMapping (V M : Type) := {
  py_get : string -> M -> option V;
  py_items : M -> list (string * V);
}.

(** [value.get(name, dflt)] *)
Definition py_get_default {V M} `{PyMapping V M} (name : string) (value : M) (dflt : V) : V :=
  default dflt (py_get name value).

#[export] Instance dict_mapping {V} : PyMapping V (gmap string V) := {|
  py_get := fun name m => m !! name;
  py_items := map_to_list;
|}.

#[export] Instance odict_mapping {V} : PyMapping V (odict V) := {|
  py_get := od_get;
  py_items := fun d => d;
|}.

(** ** Blocks *)

Section blocks.
Context {V Data Files Kwargs : Type}.

(** A child block (a field definition), as far as [BaseStructBlock] uses
    it: [meta.default] and the methods it calls.  [clean] returns the
    cleaned value or raises: [BaseStructBlock.clean] catches
    [ValidationError] and nothing else, so which exception a child raises
    decides what happens.  The struct block wraps no handler around the
    other methods; they are taken as functions. *)
Record Block : Type := {
  meta_default : V;
  block_render_form : V -> string -> option ErrorList -> text;
  block_value_from_datadict : Data -> Files -> string -> V;
  block_clean : V -> outcome V;
  block_to_python : V -> V;
  block_get_prep_value : V -> V;
  block_get_searchable_content : V -> list string;
  block_js_initializer : option string;
}.

(** [Block.set_name] and the label [Block.__init__] derives from the
    keyword arguments live in [blocks/base.py]. *)
Variable set_name : string -> Block -> Block.
Variable label_of_kwargs : Kwargs -> string.

(** *** The store of [OrderedDict] objects

    [base_blocks] is an attribute of the class, shared by all its
    instances; objects are identified by their index in the store. *)
Abbreviation store := (list (odict Block)).

(** A struct block class: [StructBlock] itself or a subclass whose fields
    the metaclass collected into [base_blocks]. *)
Record StructBlockClass : Type := {
  class_path : string;
  base_blocks : nat;
}.

Record BaseStructBlock : Type := {
  class_of : StructBlockClass;
  _constructor_kwargs : Kwargs;
  label : string;
  child_blocks : odict Block;
  child_js_initializers : gmap string string;
  dependencies : list Block;
}.

(** [d.copy()]: a new object with the same entries. *)
Definition od_copy (l : nat) (h : store) : option (nat * store) :=
  d ← h !! l; Some (length h, h ++ [d]).

(** [d[k] = b] on the object at [l]. *)
Definition od_setitem (l : nat) (k : string) (b : Block) (h : store) : store :=
  alter (od_set k b) l h.

Definition __init__ (cls : StructBlockClass)
    (local_blocks : option (list (string * Block))) (kwargs : Kwargs)
    (h : store) : option (BaseStructBlock * store) :=
  '(cb, h1) ← od_copy (base_blocks cls) h;
  let h2 :=
    match local_blocks with
    | Some ((_ :: _) as pairs) =>
        foldl (fun h '(name, block) => od_setitem cb name (set_name name block) h)
              h1 pairs
    | _ => h1
    end in
  children ← h2 !! cb;
  let js :=
    foldl (fun js '(name, block) =>
             match block_js_initializer block with
             | Some js_initializer => <[name := js_initializer]> js
             | None => js
             end) ∅ children in
  Some ({| class_of := cls;
           _constructor_kwargs := kwargs;
           label := label_of_kwargs kwargs;
           child_blocks := children;
           child_js_initializers := js;
           dependencies := children.*2 |}, h2).

(** *** StructValue

    An [OrderedDict] with a back-reference to its block.  [bound_cache] is
    the slot of the instance's [__dict__] that [cached_property] fills. *)
Definition BoundBlock : Type := Block * V.

Record StructValue : Type := {
  block : BaseStructBlock;
  entries : odict V;
  bound_cache : option (odict BoundBlock);
}.

(** [StructValue(block, pairs)] *)
Definition mkStructValue (blk : BaseStructBlock) (pairs : list (string * V)) : StructValue :=
  {| block := blk; entries := od_of_list pairs; bound_cache := None |}.

#[export] Instance struct_value_mapping : PyMapping V StructValue := {|
  py_get := fun name sv => od_get name (entries sv);
  py_items := entries;
|}.

(** *** render_form *)

Variable escape : string -> string.

Definition conditional_escape (t : text) : string :=
  match t with
  | SafeText s => s
  | PlainText s => escape s
  end.

(** [error_dict.get(name)]; [error_dict] is [None] when the single error
    carries no [params]. *)
Definition error_dict_get (error_dict : option (gmap string ErrorList))
    (name : string) : outcome (option ErrorList) :=
  match error_dict with
  | Some d => Returns (d !! name)
  | None => Raises (AttributeError "'NoneType' object has no attribute 'get'")
  end.

Section with_value.
Context {M : Type} `{!PyMapping V M}.

Definition child_renderings (self : BaseStructBlock) (value : M)
    (prefix : string) (error_dict : option (gmap string ErrorList))
    : outcome (list text) :=
  mapM (fun '(name, blk) =>
          errors ← error_dict_get error_dict name;
          mret (block_render_form blk
                  (py_get_default name value (meta_default blk))
                  (prefix +:+ "-" +:+ name) errors))
       (child_blocks self).

(** [format_html_join('\n', "<li>{0}</li>", ...)] *)
Definition list_items (renderings : list text) : text :=
  SafeText (String.concat (String (Ascii.ascii_of_nat 10) EmptyString)
              ((fun r => "<li>" +:+ conditional_escape r +:+ "</li>") <$> renderings)).

Definition struct_html (self : BaseStructBlock) (renderings : list text) : text :=
  if str_truthy (label self)
  then SafeText ("<div class=" +:+ dquote +:+ "struct-block" +:+ dquote +:+ "><label>"
                 +:+ conditional_escape (PlainText (label self)) +:+ "</label> <ul>"
                 +:+ conditional_escape (list_items renderings) +:+ "</ul></div>")
  else SafeText ("<div class=" +:+ dquote +:+ "struct-block" +:+ dquote +:+ "><ul>"
                 +:+ conditional_escape (list_items renderings) +:+ "</ul></div>").

Definition render_form (self : BaseStructBlock) (value : M) (prefix : string)
    (errors : option ErrorList) : outcome text :=
  error_dict ←
    match errors with
    | Some ((e :: _) as errs) =>
        if decide (1 < length errs)
        then Raises (TypeError "StructBlock.render_form unexpectedly received multiple errors")
        else Returns (ve_params e)
    | _ => Returns (Some ∅)
    end;
  renderings ← child_renderings self value prefix error_dict;
  mret (struct_html self renderings).

(** *** clean *)

Fixpoint clean_loop (self : BaseStructBlock) (items : list (string * V))
    (result : gmap string V) (errors : gmap string ErrorList)
    : outcome (gmap string V * gmap string ErrorList) :=
  match items with
  | [] => Returns (result, errors)
  | (name, val) :: rest =>
      blk ← od_getitem name (child_blocks self);
      match block_clean blk val with
      | Returns cleaned => clean_loop self rest (<[name := cleaned]> result) errors
      | Raises (ValidationErr e) => clean_loop self rest result (<[name := [e]]> errors)
      | Raises other => Raises other
      end
  end.

Definition clean (self : BaseStructBlock) (value : M) : outcome (gmap string V) :=
  '(result, errors) ← clean_loop self (py_items value) ∅ ∅;
  if dict_truthy errors
  then Raises (ValidationErr
                 (MkValidationError "Validation error in StructBlock" (Some errors)))
  else Returns result.

(** *** to_python, get_prep_value, get_searchable_content *)

Definition to_python (self : BaseStructBlock) (value : M) : StructValue :=
  mkStructValue self
    ((fun '(name, child_block) =>
        (name, block_to_python child_block
                 (py_get_default name value (meta_default child_block))))
     <$> child_blocks self).

Definition get_prep_value (self : BaseStructBlock) (value : M)
    : outcome (gmap string V) :=
  pairs ← mapM (fun '(name, val) =>
                  blk ← od_getitem name (child_blocks self);
                  mret (name, block_get_prep_value blk val))
               (py_items value);
  mret (py_dict pairs).

Definition get_searchable_content (self : BaseStructBlock) (value : M) : list string :=
  foldl (fun content '(name, blk) =>
           content ++ block_get_searchable_content blk
                        (py_get_default name value (meta_default blk)))
        [] (child_blocks self).
End with_value.

Definition value_from_datadict (self : BaseStructBlock) (data : Data)
    (files : Files) (prefix : string) : StructValue :=
  mkStructValue self
    ((fun '(name, blk) =>
        (name, block_value_from_datadict blk data files (prefix +:+ "-" +:+ name)))
     <$> child_blocks self).

(** *** deconstruct *)

Definition deconstruct (self : BaseStructBlock)
    : string * list (list (string * Block)) * Kwargs :=
  let path := "wagtail.wagtailcore.blocks.StructBlock" in
  let args := [child_blocks self] in
  let kwargs := _constructor_kwargs self in
  (path, args, kwargs).

(** *** StructValue.bound_blocks *)

Variable PyNone : V.

(** Modelled from the spec: [Block.bind] lives in [blocks/base.py]; a bound
    block pairs the field definition with a value. *)
Definition bind (blk : Block) (value : V) : BoundBlock := (blk, value).

(** The body of the property. *)
Definition bound_blocks_body (self : StructValue) : odict BoundBlock :=
  od_of_list
    ((fun '(name, blk) => (name, bind blk (default PyNone (od_get name (entries self)))))
     <$> child_blocks (block self)).

(** Reading [self.bound_blocks] through Django's [cached_property]: the
    first read runs the body and stores the result on the instance, later
    reads find the stored result.  The boolean tells whether the body ran. *)
Definition bound_blocks (self : StructValue) : odict BoundBlock * StructValue * bool :=
  match bound_cache self with
  | Some res => (res, self, false)
  | None =>
      let res := bound_blocks_body self in
      (res, {| block := block self; entries := entries self; bound_cache := Some res |}, true)
  end.

(** The life of one instance: reads of the property and item assignments,
    in any order. *)
Inductive sv_event : Type :=
  | ReadBoundBlocks
  | SetItem (name : string) (val : V).

Definition sv_setitem (name : string) (val : V) (self : StructValue) : StructValue :=
  {| block := block self; entries := od_set name val (entries self);
     bound_cache := bound_cache self |}.

(** Runs the events; returns the instance, the results of the reads (in
    order) and how many times the body ran. *)
Fixpoint sv_run (events : list sv_event) (self : StructValue)
    : StructValue * list (odict BoundBlock) * nat :=
  match events with
  | [] => (self, [], 0)
  | ReadBoundBlocks :: rest =>
      let '(res, self', ran) := bound_blocks self in
      let '(final, reads, n) := sv_run rest self' in
      (final, res :: reads, (if ran then 1 else 0) + n)
  | SetItem name val :: rest => sv_run rest (sv_setitem name val self)
  end.
(** *** js_initializer

    [js_dict] lives in [blocks/utils.py]. *)

Variable js_dict : gmap string string -> string.

Definition js_initializer (self : BaseStructBlock) : option string :=
  if negb (dict_truthy (child_js_initializers self))
  then None
  else Some ("StructBlock(" +:+ js_dict (child_js_initializers self) +:+ ")").
End blocks.

(** ** A small concrete world, for running the definitions *)

Module Examples.
Inductive pyval : Type :=
  | PyNone
  | PyInt (z : Z)
  | PyStr (s : string)
  | PyDict (items : list (string * pyval)).

Definition Data : Type := gmap string string.
Definition Kwargs : Type := list (string * pyval).

Abbreviation Blk := (@Block pyval Data unit).

Definition render_errors (errors : option ErrorList) : string :=
  match errors with
  | Some errs => String.concat ";" (ve_message <$> errs)
  | None => "-"
  end.

Definition show (v : pyval) : string :=
  match v with
  | PyNone => "None"
  | PyInt z => "int"
  | PyStr s => s
  | PyDict _ => "dict"
  end.

(** A required text field. *)
Definition char_block : Blk := {|
  meta_default := PyStr "untitled";
  block_render_form := fun v prefix errors =>
    SafeText ("<input name='" +:+ prefix +:+ "' value='" +:+ show v +:+ "'>"
              +:+ render_errors errors);
  block_value_from_datadict := fun data _ prefix =>
    match data !! prefix with Some s => PyStr s | None => PyNone end;
  block_clean := fun v =>
    match v with
    | PyStr (String c s) => Returns v
    | _ => Raises (ValidationErr (MkValidationError "This field is required." None))
    end;
  block_to_python := fun v => v;
  block_get_prep_value := fun v => v;
  block_get_searchable_content := fun v =>
    match v with PyStr s => [s] | _ => [] end;
  block_js_initializer := None;
|}.

(** A non-negative integer field; [to_python] normalises the sign. *)
Definition int_block : Blk := {|
  meta_default := PyInt 7;
  block_render_form := fun v prefix errors =>
    SafeText ("<input type='number' name='" +:+ prefix +:+ "'>" +:+ render_errors errors);
  block_value_from_datadict := fun data _ prefix =>
    match data !! prefix with Some s => PyStr s | None => PyNone end;
  block_clean := fun v =>
    match v with
    | PyInt z => if decide (0 ≤ z)%Z then Returns v
                 else Raises (ValidationErr
                                (MkValidationError "Enter a non-negative number." None))
    | _ => Raises (ValidationErr (MkValidationError "Enter a whole number." None))
    end;
  block_to_python := fun v =>
    match v with PyInt z => PyInt (Z.abs z) | _ => v end;
  block_get_prep_value := fun v => v;
  block_get_searchable_content := fun _ => [];
  block_js_initializer := Some "IntBlock()";
|}.

Definition set_name (name : string) (b : Blk) : Blk := b.
Definition label_of_kwargs (kw : Kwargs) : string :=
  match od_get "label" kw with Some (PyStr s) => s | _ => EmptyString end.
Definition escape (s : string) : string := s.

Abbreviation SB := (@BaseStructBlock pyval Data unit Kwargs).

(** A struct block with fields [a] and [b], in that order. *)
Definition ab_block : SB := {|
  class_of := {| class_path := "wagtail.wagtailcore.blocks.StructBlock"; base_blocks := 0 |};
  _constructor_kwargs := [];
  label := EmptyString;
  child_blocks := [("a", char_block); ("b", int_block)];
  child_js_initializers := {[ "b" := "IntBlock()" ]};
  dependencies := [char_block; int_block];
|}.

(** The same fields declared in the other order. *)
Definition ba_block : SB := {|
  class_of := {| class_path := "wagtail.wagtailcore.blocks.StructBlock"; base_blocks := 0 |};
  _constructor_kwargs := [];
  label := EmptyString;
  child_blocks := [("b", int_block); ("a", char_block)];
  child_js_initializers := {[ "b" := "IntBlock()" ]};
  dependencies := [int_block; char_block];
|}.

(** A struct block used as a child block.  Its [clean] is the struct
    block's own [clean] on the entries of the dict it is given; the other
    methods play no part in the examples and are kept trivial. *)
Definition inner_struct : SB := {|
  class_of := {| class_path := "wagtail.wagtailcore.blocks.StructBlock"; base_blocks := 0 |};
  _constructor_kwargs := [];
  label := EmptyString;
  child_blocks := [("x", char_block)];
  child_js_initializers := ∅;
  dependencies := [char_block];
|}.

Definition inner_block : Blk := {|
  meta_default := PyDict [];
  block_render_form := fun _ _ _ => SafeText "<div class='struct-block'></div>";
  block_value_from_datadict := fun _ _ _ => PyDict [];
  block_clean := fun v =>
    match v with
    | PyDict items =>
        cleaned ← clean inner_struct (items : odict pyval);
        mret (PyDict (map_to_list cleaned))
    | _ => Raises (AttributeError "object has no attribute 'items'")
    end;
  block_to_python := fun v => v;
  block_get_prep_value := fun v => v;
  block_get_searchable_content := fun _ => [];
  block_js_initializer := None;
|}.

(** A struct block with a text field and a nested struct block. *)
Definition outer_block : SB := {|
  class_of := {| class_path := "wagtail.wagtailcore.blocks.StructBlock"; base_blocks := 0 |};
  _constructor_kwargs := [];
  label := EmptyString;
  child_blocks := [("title", char_block); ("inner", inner_block)];
  child_js_initializers := ∅;
  dependencies := [char_block; inner_block];
|}.

(** A subclass of [StructBlock] declaring [title] and [body]; its
    [base_blocks] is object 0 of the store. *)
Definition PersonBlock : StructBlockClass :=
  {| class_path := "myapp.blocks.PersonBlock"; base_blocks := 0 |}.

Definition person_store : list (odict Blk) :=
  [[("title", char_block); ("body", char_block)]].

(** The plain [StructBlock] class, which declares no fields; its
    [base_blocks] is object 0 of the store. *)
Definition PlainStructBlock : StructBlockClass :=
  {| class_path := "wagtail.wagtailcore.blocks.StructBlock"; base_blocks := 0 |}.

Definition plain_store : list (odict Blk) := [[]].

Definition js_dict (d : gmap string string) : string :=
  "{" +:+ String.concat ", " ((fun '(k, v) => k +:+ ": " +:+ v) <$> map_to_list d) +:+ "}".
End Examples.

(** * Properties *)

(** ** Ordered dictionaries *)

Section odict_facts.
Context {A : Type}.
Implicit Types (d : odict A) (k : string) (a : A).

Lemma od_get_None k d : od_get k d = None ↔ k ∉ d.*1.
Proof.
  induction d as [|[k' a'] r IH]; simpl.
  - split; [intros _; apply not_elem_of_nil | done].
  - rewrite not_elem_of_cons. destruct (decide (k = k')) as [->|Hne].
    + split; [done|]. by intros [? _].
    + rewrite IH. split; [done|]. by intros [_ ?].
Qed.

Lemma od_get_Some_elem k a d : od_get k d = Some a → (k, a) ∈ d.
Proof.
  induction d as [|[k' a'] r IH]; simpl; [done|].
  case_decide; intros Hg.
  - simplify_eq. left.
  - right. auto.
Qed.

Lemma od_get_lookup i k a d :
  NoDup d.*1 → d !! i = Some (k, a) → od_get k d = Some a.
Proof.
  revert i. induction d as [|[k' a'] r IH]; intros i Hnd Hi; [done|].
  simpl in *. apply NoDup_cons in Hnd as [Hk' Hnd].
  destruct i as [|i]; simpl in Hi.
  - simplify_eq. by rewrite decide_True.
  - rewrite decide_False; [by eapply IH|].
    intros ->. apply Hk'. apply list_elem_of_fmap.
    exists (k', a). split; [done|]. by eapply list_elem_of_lookup_2.
Qed.

Lemma od_lookup_of_get i k a d :
  NoDup d.*1 → d.*1 !! i = Some k → od_get k d = Some a → d !! i = Some (k, a).
Proof.
  intros Hnd Hi Hg. rewrite list_lookup_fmap in Hi.
  destruct (d !! i) as [[k0 a0]|] eqn:Hd; simplify_eq/=.
  by rewrite (od_get_lookup _ _ _ _ Hnd Hd) in Hg; simplify_eq.
Qed.

Lemma od_get_set j k a d :
  od_get j (od_set k a d) = if decide (j = k) then Some a else od_get j d.
Proof.
  induction d as [|[k' a'] r IH]; simpl.
  - by repeat case_decide.
  - destruct (decide (k = k')) as [->|Hkk']; simpl.
    + by destruct (decide (j = k')).
    + destruct (decide (j = k')) as [->|Hjk']; [|done].
      by rewrite decide_False by done.
Qed.

Lemma od_set_fresh k a d : k ∉ d.*1 → od_set k a d = d ++ [(k, a)].
Proof.
  induction d as [|[k' a'] r IH]; simpl; [done|].
  rewrite not_elem_of_cons. intros [? ?].
  rewrite decide_False by done. by rewrite IH.
Qed.

Lemma od_set_keys_present k a d : k ∈ d.*1 → (od_set k a d).*1 = d.*1.
Proof.
  induction d as [|[k' a'] r IH]; simpl.
  - by intros ?%elem_of_nil.
  - case_decide; [done|]. rewrite elem_of_cons. intros [?|?]; [done|].
    rewrite !fmap_cons. f_equal. auto.
Qed.

(** Assignment never moves an existing key. *)
Lemma od_set_keys_prefix k a d : (od_set k a d).*1 `prefix_of` d.*1 ++ [k].
Proof.
  destruct (decide (k ∈ d.*1)) as [Hin|Hnin].
  - rewrite od_set_keys_present by done. by apply prefix_app_r.
  - rewrite od_set_fresh by done. by rewrite fmap_app.
Qed.

Lemma od_set_keys_extend k a d : d.*1 `prefix_of` (od_set k a d).*1.
Proof.
  destruct (decide (k ∈ d.*1)) as [Hin|Hnin].
  - by rewrite od_set_keys_present.
  - rewrite od_set_fresh by done. rewrite fmap_app. by apply prefix_app_r.
Qed.

Lemma od_set_NoDup k a d : NoDup d.*1 → NoDup (od_set k a d).*1.
Proof.
  intros Hnd. destruct (decide (k ∈ d.*1)) as [Hin|Hnin].
  - by rewrite od_set_keys_present.
  - rewrite od_set_fresh, fmap_app by done. simpl.
    apply NoDup_app. split_and!; [done| |apply NoDup_singleton].
    intros x Hx ->%list_elem_of_singleton. done.
Qed.

Lemma od_of_list_acc (acc l : odict A) :
  NoDup (acc ++ l).*1 → foldl (fun d '(k, a) => od_set k a d) acc l = acc ++ l.
Proof.
  revert acc. induction l as [|[k a] l IH]; intros acc Hnd; simpl.
  - by rewrite app_nil_r.
  - assert (k ∉ acc.*1) as Hk.
    { rewrite fmap_app in Hnd. apply NoDup_app in Hnd as (_ & Hdisj & _).
      intros Hin. apply (Hdisj _ Hin). simpl. left. }
    rewrite od_set_fresh by done. rewrite IH.
    + by rewrite <- app_assoc.
    + by rewrite <- app_assoc.
Qed.

(** [OrderedDict(pairs)] keeps pairs with distinct keys as they are. *)
Lemma od_of_list_NoDup (l : odict A) : NoDup l.*1 → od_of_list l = l.
Proof. intros Hnd. unfold od_of_list. by rewrite od_of_list_acc. Qed.
End odict_facts.

Lemma od_get_fmap {A B} (f : string → A → B) k (d : odict A) :
  od_get k ((fun '(n, c) => (n, f n c)) <$> d) = f k <$> od_get k d.
Proof.
  induction d as [|[k' a'] r IH]; simpl; [done|].
  case_decide; by simplify_eq.
Qed.

Lemma od_keys_fmap {A B} (f : string → A → B) (d : odict A) :
  ((fun '(n, c) => (n, f n c)) <$> d).*1 = d.*1.
Proof.
  induction d as [|[k' a'] r IH]; [done|].
  rewrite !fmap_cons. simpl. by f_equal.
Qed.

Lemma od_lookup_fmap {A B} (f : string → A → B) i (d : odict A) :
  ((fun '(n, c) => (n, f n c)) <$> d) !! i = (fun '(n, c) => (n, f n c)) <$> d !! i.
Proof. apply list_lookup_fmap. Qed.

(** Plain dictionaries built from pairs *)

Lemma py_dict_acc_lookup {A} (l : list (string * A)) (m : gmap string A) k :
  k ∉ l.*1 → foldl (fun m '(k, a) => <[k := a]> m) m l !! k = m !! k.
Proof.
  revert m. induction l as [|[k' a'] l IH]; intros m Hk; simpl; [done|].
  simpl in Hk. apply not_elem_of_cons in Hk as [? ?].
  rewrite IH by done. by rewrite lookup_insert_ne.
Qed.

Lemma py_dict_acc_lookup_NoDup {A} (l : list (string * A)) (m : gmap string A) k a :
  NoDup l.*1 → (k, a) ∈ l → foldl (fun m '(k, a) => <[k := a]> m) m l !! k = Some a.
Proof.
  revert m. induction l as [|[k' a'] l IH]; intros m Hnd Hin; simpl.
  - by apply elem_of_nil in Hin.
  - simpl in Hnd. apply NoDup_cons in Hnd as [Hk' Hnd].
    apply elem_of_cons in Hin as [Heq|Hin].
    + simplify_eq. rewrite py_dict_acc_lookup by done. apply lookup_insert_eq.
    + by apply IH.
Qed.

Lemma py_dict_lookup_None {A} (l : list (string * A)) k :
  k ∉ l.*1 → py_dict l !! k = None.
Proof. intros Hk. unfold py_dict. by rewrite py_dict_acc_lookup. Qed.

Lemma py_dict_lookup_Some {A} (l : list (string * A)) k a :
  NoDup l.*1 → (k, a) ∈ l → py_dict l !! k = Some a.
Proof. apply py_dict_acc_lookup_NoDup. Qed.

Lemma dict_truthy_false {A} (m : gmap string A) : dict_truthy m = false ↔ m = ∅.
Proof.
  unfold dict_truthy. destruct (map_to_list m) eqn:Hm.
  - by apply map_to_list_empty_iff in Hm.
  - split; [done|]. intros ->. by rewrite map_to_list_empty in Hm.
Qed.

(** ** Construction *)

Section construction.
Context {V Data Files Kwargs : Type}.
Variable set_name : string → @Block V Data Files → @Block V Data Files.
Variable label_of_kwargs : Kwargs → string.

Abbreviation Blk := (@Block V Data Files).
Abbreviation store := (list (odict Blk)).
Abbreviation merge := (foldl (fun (d : odict Blk) '(n, b) => od_set n (set_name n b) d)).

Lemma merge_keys_prefix (l : list (string * Blk)) (d : odict Blk) :
  d.*1 `prefix_of` (merge d l).*1.
Proof.
  revert d. induction l as [|[n b] l IH]; intros d; simpl; [done|].
  etrans; [apply od_set_keys_extend|apply IH].
Qed.

Lemma merge_NoDup (l : list (string * Blk)) (d : odict Blk) :
  NoDup d.*1 → NoDup (merge d l).*1.
Proof.
  revert d. induction l as [|[n b] l IH]; intros d Hnd; simpl; [done|].
  by apply IH, od_set_NoDup.
Qed.

Lemma merge_get_other (l : list (string * Blk)) (d : odict Blk) name :
  name ∉ l.*1 → od_get name (merge d l) = od_get name d.
Proof.
  revert d. induction l as [|[n b] l IH]; intros d Hn; simpl; [done|].
  simpl in Hn. apply not_elem_of_cons in Hn as [Hne Hn].
  rewrite IH by done. rewrite od_get_set. by rewrite decide_False.
Qed.

Lemma merge_get_last (l1 l2 : list (string * Blk)) (d : odict Blk) name b :
  name ∉ l2.*1 →
  od_get name (merge d (l1 ++ (name, b) :: l2)) = Some (set_name name b).
Proof.
  intros Hn. rewrite foldl_app. simpl. rewrite merge_get_other by done.
  rewrite od_get_set. by rewrite decide_True.
Qed.

Lemma merge_keys_local (l : list (string * Blk)) (d : odict Blk) name :
  name ∈ l.*1 → name ∈ (merge d l).*1.
Proof.
  revert d. induction l as [|[n b] l IH]; intros d Hn; simpl in *.
  - by apply elem_of_nil in Hn.
  - apply elem_of_cons in Hn as [->|Hn]; [|by apply IH].
    eapply elem_of_prefix; [|apply merge_keys_prefix].
    destruct (decide (n ∈ (od_set n (set_name n b) d).*1)) as [|Hnot]; [done|].
    apply od_get_None in Hnot. rewrite od_get_set, decide_True in Hnot; done.
Qed.

(** A name of the base set stays where it was. *)
Lemma merge_position (l : list (string * Blk)) (d : odict Blk) i name b0 b :
  NoDup d.*1 → d !! i = Some (name, b0) →
  od_get name (merge d l) = Some b → merge d l !! i = Some (name, b).
Proof.
  intros Hnd Hi Hg. apply od_lookup_of_get; [by apply merge_NoDup| |done].
  eapply prefix_lookup_Some; [|apply merge_keys_prefix].
  by rewrite list_lookup_fmap, Hi.
Qed.

Lemma setitems_lookup_eq (l : list (string * Blk)) (h : store) cb :
  foldl (fun h '(n, b) => od_setitem cb n (set_name n b) h) h l !! cb
  = (fun d => merge d l) <$> h !! cb.
Proof.
  revert h. induction l as [|[n b] l IH]; intros h; simpl.
  - by destruct (h !! cb).
  - rewrite IH. unfold od_setitem. rewrite list_lookup_alter_eq.
    by destruct (h !! cb).
Qed.

Lemma setitems_lookup_ne (l : list (string * Blk)) (h : store) cb j :
  cb ≠ j →
  foldl (fun h '(n, b) => od_setitem cb n (set_name n b) h) h l !! j = h !! j.
Proof.
  intros Hne. revert h. induction l as [|[n b] l IH]; intros h; simpl; [done|].
  rewrite IH. unfold od_setitem. by rewrite list_lookup_alter_ne.
Qed.

(** What [__init__] leaves in the store and in the instance. *)
Lemma init_spec cls local_blocks kwargs (h : store) base :
  h !! base_blocks cls = Some base →
  let children := merge base (default [] local_blocks) in
  ∃ self h',
    __init__ set_name label_of_kwargs cls local_blocks kwargs h = Some (self, h')
    ∧ child_blocks self = children
    ∧ _constructor_kwargs self = kwargs
    ∧ class_of self = cls
    ∧ h' !! length h = Some children
    ∧ ∀ j, j ≠ length h → h' !! j = h !! j.
Proof.
  intros Hbase children. unfold __init__, od_copy. rewrite Hbase. simpl.
  set (h1 := h ++ [base]).
  assert (h1 !! length h = Some base) as Hcb.
  { unfold h1. by rewrite list_lookup_middle. }
  assert (∀ j, j ≠ length h → h1 !! j = h !! j) as Hother.
  { intros j Hj. unfold h1. destruct (decide (j < length h)).
    - by rewrite lookup_app_l.
    - rewrite !lookup_ge_None_2; [done|lia|rewrite length_app; simpl; lia]. }
  set (F := fun (h' : store) '(n, b) => od_setitem (length h) n (set_name n b) h').
  assert (match local_blocks with
          | Some ((_ :: _) as pairs) => foldl F h1 pairs
          | _ => h1
          end = foldl F h1 (default [] local_blocks)) as Hh2.
  { by destruct local_blocks as [[|[??] ?]|]. }
  rewrite Hh2. clear Hh2. set (h2 := foldl F h1 (default [] local_blocks)).
  assert (h2 !! length h = Some children) as Hch.
  { unfold h2, F. by rewrite setitems_lookup_eq, Hcb. }
  rewrite Hch. simpl. eexists _, h2. split; [done|]. simpl.
  split_and!; try done.
  intros j Hj. unfold h2, F. rewrite setitems_lookup_ne by done. by apply Hother.
Qed.

Lemma od_set_keys k (a : Blk) (d : odict Blk) :
  (od_set k a d).*1 = if decide (k ∈ d.*1) then d.*1 else d.*1 ++ [k].
Proof.
  case_decide.
  - by apply od_set_keys_present.
  - rewrite od_set_fresh by done. by rewrite fmap_app.
Qed.

(** The order of the names after a merge depends on the names only. *)
Lemma merge_keys_congr (l : list (string * Blk)) (d d' : odict Blk) :
  d.*1 = d'.*1 → (merge d l).*1 = (merge d' l).*1.
Proof.
  revert d d'. induction l as [|[n b] l IH]; intros d d' Hkeys; simpl; [done|].
  apply IH. rewrite !od_set_keys. by rewrite Hkeys.
Qed.

Lemma merge_keys_mem (l : list (string * Blk)) (d : odict Blk) name :
  name ∈ (merge d l).*1 ↔ name ∈ d.*1 ∨ name ∈ l.*1.
Proof.
  split.
  - revert d. induction l as [|[n b] l IH]; intros d Hin; simpl in *; [by left|].
    apply IH in Hin as [Hin|Hin]; [|right; by right].
    rewrite od_set_keys in Hin. case_decide; [by left|].
    apply elem_of_app in Hin as [Hin|Hin]; [by left|].
    apply list_elem_of_singleton in Hin as ->. right. left.
  - intros [Hin|Hin].
    + eapply elem_of_prefix; [exact Hin|apply merge_keys_prefix].
    + by apply merge_keys_local.
Qed.

(** A pair whose name is already there when it is assigned does not change
    the order of the names. *)
Lemma merge_keys_skip (l1 l2 : list (string * Blk)) (d : odict Blk) name b :
  name ∈ d.*1 ∨ name ∈ l1.*1 →
  (merge d (l1 ++ (name, b) :: l2)).*1 = (merge d (l1 ++ l2)).*1.
Proof.
  intros Hin. rewrite !foldl_app. simpl. apply merge_keys_congr.
  apply od_set_keys_present. by apply merge_keys_mem.
Qed.

Lemma merge_fresh (l d : odict Blk) :
  NoDup (d ++ l).*1 →
  merge d l = d ++ ((fun '(n, b) => (n, set_name n b)) <$> l).
Proof.
  revert d. induction l as [|[n b] l IH]; intros d Hnd; simpl.
  - by rewrite app_nil_r.
  - assert (n ∉ d.*1) as Hn.
    { rewrite fmap_app in Hnd. apply NoDup_app in Hnd as (_ & Hdisj & _).
      intros Hin. apply (Hdisj _ Hin). simpl. left. }
    rewrite od_set_fresh by done. rewrite IH.
    + by rewrite <- app_assoc.
    + rewrite <- app_assoc. rewrite !fmap_app in *. by rewrite !fmap_cons in *.
Qed.

(** C7.  Constructing a struct block merges the supplemental (name, block)
    pairs onto a copy of the class's base field set.  The construction
    succeeds whatever the names; no object that was in the store (the base
    set among them) is changed, and the instance's [child_blocks] is a new
    object.  Its names are distinct, begin with the names of the base set in
    their order, and are exactly the names of the base set and of the pairs.
    A base field no pair names keeps its position and definition.  The last
    pair of each name supplies that name's definition (after [set_name]): at
    the base field's position when the name is a base name, and in every
    case as an entry of [child_blocks].  Pairs with new, distinct names are
    appended in the order given.  A pair whose name is already present when
    it is assigned, from the base set or an earlier pair, changes no
    position: the names come in the same order as without that pair. *)
Theorem init_merges_onto_copy cls local_blocks kwargs (h : store) base :
  h !! base_blocks cls = Some base →
  NoDup base.*1 →
  let pairs := default [] local_blocks in
  ∃ self h',
    __init__ set_name label_of_kwargs cls local_blocks kwargs h = Some (self, h')
    ∧ (∀ j d, h !! j = Some d → h' !! j = Some d)
    ∧ h' !! base_blocks cls = Some base
    ∧ length h ≠ base_blocks cls
    ∧ h' !! length h = Some (child_blocks self)
    ∧ child_blocks self = merge base pairs
    ∧ NoDup (child_blocks self).*1
    ∧ base.*1 `prefix_of` (child_blocks self).*1
    ∧ (∀ name, name ∈ (child_blocks self).*1 ↔ name ∈ base.*1 ∨ name ∈ pairs.*1)
    ∧ (∀ i name b0, base !! i = Some (name, b0) → name ∉ pairs.*1 →
         child_blocks self !! i = Some (name, b0))
    ∧ (∀ i name b0 l1 b l2, base !! i = Some (name, b0) →
         pairs = l1 ++ (name, b) :: l2 → name ∉ l2.*1 →
         child_blocks self !! i = Some (name, set_name name b))
    ∧ (∀ l1 name b l2, pairs = l1 ++ (name, b) :: l2 → name ∉ l2.*1 →
         (name, set_name name b) ∈ child_blocks self)
    ∧ (NoDup (base ++ pairs).*1 →
         child_blocks self = base ++ ((fun '(n, b) => (n, set_name n b)) <$> pairs))
    ∧ (∀ l1 name b l2, pairs = l1 ++ (name, b) :: l2 →
         name ∈ base.*1 ∨ name ∈ l1.*1 →
         ∃ self0 h0,
           __init__ set_name label_of_kwargs cls (Some (l1 ++ l2)) kwargs h
           = Some (self0, h0)
           ∧ (child_blocks self).*1 = (child_blocks self0).*1).
Proof.
  intros Hbase Hnd pairs.
  destruct (init_spec cls local_blocks kwargs h base Hbase)
    as (self & h' & Hinit & Hch & _ & _ & Hnew & Hold).
  fold pairs in Hch, Hnew.
  assert (base_blocks cls < length h) as Hlt by (by eapply lookup_lt_Some).
  assert (∀ j d, h !! j = Some d → h' !! j = Some d) as Hkeep.
  { intros j d Hj. rewrite Hold; [done|].
    apply lookup_lt_Some in Hj. lia. }
  exists self, h'. split_and!; try done.
  - by apply Hkeep.
  - lia.
  - by rewrite Hch.
  - rewrite Hch. by apply merge_NoDup.
  - rewrite Hch. apply merge_keys_prefix.
  - intros name. rewrite Hch. apply merge_keys_mem.
  - intros i name b0 Hi Hn. rewrite Hch. eapply merge_position; [done..|].
    rewrite merge_get_other by done. by eapply od_get_lookup.
  - intros i name b0 l1 b l2 Hi Hsplit Hn. rewrite Hch, Hsplit.
    eapply merge_position; [done..|]. by apply merge_get_last.
  - intros l1 name b l2 Hsplit Hn. rewrite Hch, Hsplit.
    apply od_get_Some_elem. by apply merge_get_last.
  - intros Hfresh. rewrite Hch. by apply merge_fresh.
  - intros l1 name b l2 Hsplit Hin.
    destruct (init_spec cls (Some (l1 ++ l2)) kwargs h base Hbase)
      as (self0 & h0 & Hinit0 & Hch0 & _).
    exists self0, h0. split; [done|].
    rewrite Hch, Hch0, Hsplit. simpl. by apply merge_keys_skip.
Qed.

(** C8.  For an instance of any struct block class, [StructBlock] itself or
    a subclass with declared fields, [deconstruct] returns the path of the
    base [StructBlock] type whatever the class's own path, one positional
    argument holding all the (name, block) pairs of [child_blocks] in order
    (the declared fields with the constructor's pairs merged in), and the
    keyword arguments the constructor received. *)
Theorem deconstruct_reports_base_struct cls local_blocks kwargs (h : store) base :
  h !! base_blocks cls = Some base →
  ∃ self h',
    __init__ set_name label_of_kwargs cls local_blocks kwargs h = Some (self, h')
    ∧ class_of self = cls
    ∧ deconstruct self =
        ("wagtail.wagtailcore.blocks.StructBlock",
         [merge base (default [] local_blocks)],
         kwargs)
    ∧ ∀ name, name ∈ base.*1 ∨ name ∈ (default [] local_blocks).*1 →
        ∃ args, (deconstruct self).1.2 = [args] ∧ name ∈ args.*1.
Proof.
  intros Hbase.
  destruct (init_spec cls local_blocks kwargs h base Hbase)
    as (self & h' & Hinit & Hch & Hkw & Hcls & _ & _).
  exists self, h'. split_and!; try done.
  - unfold deconstruct. by rewrite Hch, Hkw.
  - intros name Hname. exists (child_blocks self). split; [done|].
    rewrite Hch. clear Hch Hinit. destruct Hname as [Hb|Hl].
    + eapply elem_of_prefix; [exact Hb|apply merge_keys_prefix].
    + by apply merge_keys_local.
Qed.
End construction.

Lemma init_merges_onto_copy_witness :
  Examples.person_store !! base_blocks Examples.PersonBlock
    = Some [("title", Examples.char_block); ("body", Examples.char_block)]
  ∧ NoDup ["title"; "body"]
  ∧ ∃ self h',
      __init__ Examples.set_name Examples.label_of_kwargs Examples.PersonBlock
        (Some [("body", Examples.int_block); ("extra", Examples.int_block)])
        [("label", Examples.PyStr "Person")] Examples.person_store = Some (self, h')
      ∧ h' !! 0 = Some [("title", Examples.char_block); ("body", Examples.char_block)]
      ∧ child_blocks self !! 0 = Some ("title", Examples.char_block)
      ∧ child_blocks self !! 1 = Some ("body", Examples.int_block)
      ∧ ("extra", Examples.int_block) ∈ child_blocks self
      ∧ (∀ name, name ∈ (child_blocks self).*1 ↔
           name ∈ ["title"; "body"] ∨ name ∈ ["body"; "extra"]).
Proof.
  assert (NoDup ["title"; "body"]) as Hnd by compute_done.
  split; [reflexivity|]. split; [exact Hnd|].
  destruct (init_merges_onto_copy Examples.set_name Examples.label_of_kwargs
              Examples.PersonBlock
              (Some [("body", Examples.int_block); ("extra", Examples.int_block)])
              [("label", Examples.PyStr "Person")] Examples.person_store
              [("title", Examples.char_block); ("body", Examples.char_block)]
              eq_refl Hnd)
    as (self & h' & Hinit & _ & Hbase & _ & _ & _ & _ & _ & Hnames & Hsame & Hlast
        & Hmem & _).
  exists self, h'. split; [exact Hinit|]. split; [exact Hbase|]. split_and!.
  - apply (Hsame 0 "title" Examples.char_block eq_refl). compute_done.
  - apply (Hlast 1 "body" Examples.char_block [] Examples.int_block
             [("extra", Examples.int_block)] eq_refl eq_refl). compute_done.
  - apply (Hmem [("body", Examples.int_block)] "extra" Examples.int_block [] eq_refl).
    compute_done.
  - exact Hnames.
Defined.

Lemma deconstruct_reports_base_struct_witness :
  Examples.person_store !! base_blocks Examples.PersonBlock
    = Some [("title", Examples.char_block); ("body", Examples.char_block)]
  ∧ class_path Examples.PersonBlock = "myapp.blocks.PersonBlock"
  ∧ ∃ self h',
      __init__ Examples.set_name Examples.label_of_kwargs Examples.PersonBlock
        (Some [("age", Examples.int_block)])
        [("label", Examples.PyStr "Person")] Examples.person_store = Some (self, h')
      ∧ class_of self = Examples.PersonBlock
      ∧ deconstruct self =
          ("wagtail.wagtailcore.blocks.StructBlock",
           [[("title", Examples.char_block); ("body", Examples.char_block);
             ("age", Examples.int_block)]],
           [("label", Examples.PyStr "Person")]).
Proof.
  split; [reflexivity|]. split; [reflexivity|].
  destruct (deconstruct_reports_base_struct Examples.set_name Examples.label_of_kwargs
              Examples.PersonBlock (Some [("age", Examples.int_block)])
              [("label", Examples.PyStr "Person")] Examples.person_store
              [("title", Examples.char_block); ("body", Examples.char_block)] eq_refl)
    as (self & h' & Hinit & Hcls & Hdec & _).
  exists self, h'. split; [exact Hinit|]. split; [exact Hcls|]. exact Hdec.
Defined.

(** ** Rendering the form *)

Lemma mapM_returns {A B} (f : A → outcome B) (g : A → B) (l : list A) :
  (∀ x, x ∈ l → f x = Returns (g x)) → mapM f l = Returns (g <$> l).
Proof.
  induction l as [|x l IH]; intros Hf; [done|].
  simpl. rewrite (Hf x) by left. simpl.
  rewrite IH; [done|]. intros y Hy. apply Hf. by right.
Qed.

Section rendering.
Context {V Data Files Kwargs M : Type} `{!PyMapping V M}.
Variable escape : string → string.
Implicit Types (self : @BaseStructBlock V Data Files Kwargs) (value : M).

Lemma child_renderings_with_dict self value prefix payload :
  child_renderings self value prefix (Some payload)
  = Returns ((fun '(name, blk) =>
                block_render_form blk
                  (py_get_default name value (meta_default blk))
                  (prefix +:+ "-" +:+ name) (payload !! name))
             <$> child_blocks self).
Proof. unfold child_renderings. apply mapM_returns. by intros [name blk] _. Qed.

(** C2.  Whenever the caller supplies more than one top-level error,
    [render_form] raises [TypeError] (not a [ValidationError]) and renders
    nothing. *)
Theorem render_form_rejects_multiple_errors self value prefix (errors : ErrorList) :
  1 < length errors →
  render_form escape self value prefix (Some errors)
  = Raises (TypeError "StructBlock.render_form unexpectedly received multiple errors").
Proof.
  intros Hlen. unfold render_form.
  destruct errors as [|e errors]; [simpl in Hlen; lia|].
  by rewrite decide_True.
Qed.

End rendering.

Lemma render_form_rejects_multiple_errors_witness :
  1 < length [MkValidationError "first" None; MkValidationError "second" None]
  ∧ render_form Examples.escape Examples.ab_block (∅ : gmap string Examples.pyval) "page"
      (Some [MkValidationError "first" None; MkValidationError "second" None])
    = Raises (TypeError "StructBlock.render_form unexpectedly received multiple errors").
Proof.
  split; [simpl; lia|].
  apply (render_form_rejects_multiple_errors Examples.escape). simpl. lia.
Defined.


(** ** Validation *)

Section cleaning.
Context {V Data Files Kwargs M : Type} `{!PyMapping V M}.
Implicit Types (self : @BaseStructBlock V Data Files Kwargs) (value : M).

(** One turn of the loop of [clean]. *)
Lemma clean_loop_cons self n val (items : list (string * V)) result errors :
  clean_loop self ((n, val) :: items) result errors
  = match od_get n (child_blocks self) with
    | None => Raises (KeyError n)
    | Some blk =>
        match block_clean blk val with
        | Returns cleaned => clean_loop self items (<[n := cleaned]> result) errors
        | Raises (ValidationErr e) => clean_loop self items result (<[n := [e]]> errors)
        | Raises other => Raises other
        end
    end.
Proof. simpl. unfold od_getitem. by destruct (od_get n (child_blocks self)). Qed.


(** What the loop raises is the failed lookup of an entry's name, or what a
    child block's [clean] raised, other than [ValidationError]. *)
Lemma clean_loop_raises self (items : list (string * V)) result errors e :
  clean_loop self items result errors = Raises e →
  (∃ key, e = KeyError key ∧ key ∈ items.*1 ∧ od_get key (child_blocks self) = None)
  ∨ (∃ name val blk, (name, val) ∈ items
                     ∧ od_get name (child_blocks self) = Some blk
                     ∧ block_clean blk val = Raises e
                     ∧ ∀ ve, e ≠ ValidationErr ve).
Proof.
  revert result errors.
  induction items as [|[n val] items IH]; intros result errors Hrun; [done|].
  rewrite clean_loop_cons in Hrun.
  assert (∀ r e', clean_loop self items r e' = Raises e →
            (∃ key, e = KeyError key ∧ key ∈ ((n, val) :: items).*1
                    ∧ od_get key (child_blocks self) = None)
            ∨ (∃ name val' blk, (name, val') ∈ (n, val) :: items
                                ∧ od_get name (child_blocks self) = Some blk
                                ∧ block_clean blk val' = Raises e
                                ∧ ∀ ve, e ≠ ValidationErr ve)) as IH'.
  { intros r e' Hrest.
    destruct (IH _ _ Hrest) as [(key & ? & ? & ?)|(name & val' & blk & ? & ? & ? & ?)].
    - left. exists key. split_and!; [done| |done]. by right.
    - right. exists name, val', blk. split_and!; [by right|done..]. }
  destruct (od_get n (child_blocks self)) as [blk|] eqn:Hn.
  - destruct (block_clean blk val) as [c|other] eqn:Hclean; [by eapply IH'|].
    destruct other as [msg|key|msg|ve]; [| | |by eapply IH'];
      injection Hrun as <-; right; exists n, val, blk;
      (split_and!; [left|done|done|done]).
  - injection Hrun as <-. left. exists n. split_and!; [done|left|done].
Qed.



(** When every entry names a child block whose [clean] returns or raises
    [ValidationError], the loop visits all of them. *)
Lemma clean_loop_total self (items : list (string * V)) result errors :
  NoDup items.*1 →
  (∀ name, name ∈ items.*1 → is_Some (od_get name (child_blocks self))) →
  (∀ name val blk e, (name, val) ∈ items →
     od_get name (child_blocks self) = Some blk →
     block_clean blk val = Raises e → ∃ ve, e = ValidationErr ve) →
  ∃ result' errors',
    clean_loop self items result errors = Returns (result', errors')
    ∧ (∀ name, name ∉ items.*1 →
         result' !! name = result !! name ∧ errors' !! name = errors !! name)
    ∧ (∀ name val blk, (name, val) ∈ items →
         od_get name (child_blocks self) = Some blk →
         (∀ cleaned, block_clean blk val = Returns cleaned →
            result' !! name = Some cleaned ∧ errors' !! name = errors !! name)
         ∧ (∀ ve, block_clean blk val = Raises (ValidationErr ve) →
              errors' !! name = Some [ve] ∧ result' !! name = result !! name)).
Proof.
  revert result errors.
  induction items as [|[n val] items IH]; intros result errors Hnd Hdecl Hve.
  - exists result, errors. split_and!; [done|done|].
    intros ? ? ? Hin. by apply elem_of_nil in Hin.
  - simpl in Hnd. apply NoDup_cons in Hnd as [Hn Hnd].
    destruct (Hdecl n) as [blk Hblk]; [left|].
    assert (∀ name, name ∈ items.*1 → is_Some (od_get name (child_blocks self)))
      as Hdecl' by (intros ? ?; apply Hdecl; by right).
    assert (∀ name val blk e, (name, val) ∈ items →
              od_get name (child_blocks self) = Some blk →
              block_clean blk val = Raises e → ∃ ve, e = ValidationErr ve) as Hve'.
    { intros name val' blk' e Hin. apply Hve. by right. }
    rewrite clean_loop_cons, Hblk.
    assert (∀ name val', (name, val') ∈ items → name ≠ n) as Hother.
    { intros name val' Hmem ->. apply Hn. apply list_elem_of_fmap. by exists (n, val'). }
    destruct (block_clean blk val) as [c|e] eqn:Hclean.
    + destruct (IH (<[n := c]> result) errors Hnd Hdecl' Hve')
        as (result' & errors' & -> & Hout & Hin).
      exists result', errors'. split_and!; [done| |].
      * intros name [Hne Hname]%not_elem_of_cons.
        destruct (Hout name Hname) as [-> ->]. by rewrite lookup_insert_ne.
      * intros name val' blk' [Heq|Hmem]%elem_of_cons Hblk'.
        -- simplify_eq. destruct (Hout n Hn) as [-> ->]. split.
           ++ intros cleaned Heq. rewrite Hclean in Heq. injection Heq as <-.
              by rewrite lookup_insert_eq.
           ++ intros ve Heq. congruence.
        -- destruct (Hin name val' blk' Hmem Hblk') as [Hret Hfail].
           pose proof (Hother name val' Hmem) as Hne. split.
           ++ intros cleaned Heq. destruct (Hret cleaned Heq) as [-> ->].
              by rewrite ?lookup_insert_ne by done.
           ++ intros ve Heq. destruct (Hfail ve Heq) as [-> ->].
              by rewrite ?lookup_insert_ne by done.
    + destruct (Hve n val blk e) as [ve ->]; [left|done|done|].
      destruct (IH result (<[n := [ve]]> errors) Hnd Hdecl' Hve')
        as (result' & errors' & -> & Hout & Hin).
      exists result', errors'. split_and!; [done| |].
      * intros name [Hne Hname]%not_elem_of_cons.
        destruct (Hout name Hname) as [-> ->]. by rewrite lookup_insert_ne.
      * intros name val' blk' [Heq|Hmem]%elem_of_cons Hblk'.
        -- simplify_eq. destruct (Hout n Hn) as [-> ->]. split.
           ++ intros cleaned Heq. congruence.
           ++ intros ve' Heq. rewrite Hclean in Heq. injection Heq as <-.
              by rewrite lookup_insert_eq.
        -- destruct (Hin name val' blk' Hmem Hblk') as [Hret Hfail].
           pose proof (Hother name val' Hmem) as Hne. split.
           ++ intros cleaned Heq. destruct (Hret cleaned Heq) as [-> ->].
              by rewrite ?lookup_insert_ne by done.
           ++ intros ve' Heq. destruct (Hfail ve' Heq) as [-> ->].
              by rewrite ?lookup_insert_ne by done.
Qed.

(** C1 (amended).  For every input value (a mapping: its entries have
    distinct names) whose entries all name child blocks, and whose child
    blocks' [clean] raises nothing but [ValidationError] on them, [clean]
    validates every entry, whatever the other entries do.  If at least one
    entry fails, [clean] raises one [ValidationError] whose [params] maps
    exactly the failing names, each to the list holding its own error; names
    that validated are absent from it.  If none fails, [clean] returns the
    mapping from each name to its cleaned value. *)
Theorem clean_validates_every_entry self value :
  NoDup (py_items value).*1 →
  (∀ name, name ∈ (py_items value).*1 → is_Some (od_get name (child_blocks self))) →
  (∀ name val blk e, (name, val) ∈ py_items value →
     od_get name (child_blocks self) = Some blk →
     block_clean blk val = Raises e → ∃ ve, e = ValidationErr ve) →
  let cleans_to name (r : outcome V) :=
    ∃ val blk, (name, val) ∈ py_items value
               ∧ od_get name (child_blocks self) = Some blk
               ∧ block_clean blk val = r in
  ((∃ name ve, cleans_to name (Raises (ValidationErr ve))) →
     ∃ errors,
       clean self value
       = Raises (ValidationErr
                   (MkValidationError "Validation error in StructBlock" (Some errors)))
       ∧ ∀ name errs, errors !! name = Some errs ↔
                      ∃ ve, errs = [ve] ∧ cleans_to name (Raises (ValidationErr ve)))
  ∧ (¬ (∃ name ve, cleans_to name (Raises (ValidationErr ve))) →
     ∃ result,
       clean self value = Returns result
       ∧ ∀ name cleaned, result !! name = Some cleaned ↔
                         cleans_to name (Returns cleaned)).
Proof.
  intros Hnd Hdecl Hve cleans_to.
  destruct (clean_loop_total self (py_items value) ∅ ∅ Hnd Hdecl Hve)
    as (result & errors & Hloop & Hout & Hin).
  assert (∀ name, name ∈ (py_items value).*1 →
            ∃ val blk, (name, val) ∈ py_items value
                       ∧ od_get name (child_blocks self) = Some blk) as Hentry.
  { intros name Hname. destruct (Hdecl name Hname) as [blk Hblk].
    apply list_elem_of_fmap in Hname as ([n val] & -> & Hmem). by exists val, blk. }
  assert (∀ val (blk : @Block V Data Files),
            (∃ cleaned, block_clean blk val = Returns cleaned)
            ∨ (∃ e, block_clean blk val = Raises e)) as Hcases.
  { intros val blk. destruct (block_clean blk val); [left|right]; by eexists. }
  assert (∀ name errs, errors !! name = Some errs ↔
            ∃ ve, errs = [ve] ∧ cleans_to name (Raises (ValidationErr ve))) as Herrors.
  { intros name errs. split.
    - intros Hlook. destruct (decide (name ∈ (py_items value).*1)) as [Hname|Hname].
      + destruct (Hentry name Hname) as (val & blk & Hmem & Hblk).
        destruct (Hin name val blk Hmem Hblk) as [Hret Hfail].
        destruct (Hcases val blk) as [[cleaned Hclean]|[e Hclean]].
        * destruct (Hret cleaned Hclean) as [_ Hsame].
          rewrite Hsame, lookup_empty in Hlook. done.
        * destruct (Hve name val blk e Hmem Hblk Hclean) as [ve ->].
          destruct (Hfail ve Hclean) as [Hsome _]. rewrite Hsome in Hlook.
          injection Hlook as <-. exists ve. split; [done|]. by exists val, blk.
      + destruct (Hout name Hname) as [_ Hnone].
        rewrite Hnone, lookup_empty in Hlook. done.
    - intros (ve & -> & val & blk & Hmem & Hblk & Hclean).
      by destruct (proj2 (Hin name val blk Hmem Hblk) ve Hclean). }
  assert (∀ name cleaned, result !! name = Some cleaned ↔
            cleans_to name (Returns cleaned)) as Hresult.
  { intros name cleaned. split.
    - intros Hlook. destruct (decide (name ∈ (py_items value).*1)) as [Hname|Hname].
      + destruct (Hentry name Hname) as (val & blk & Hmem & Hblk).
        destruct (Hin name val blk Hmem Hblk) as [Hret Hfail].
        destruct (Hcases val blk) as [[c Hclean]|[e Hclean]].
        * destruct (Hret c Hclean) as [Hsome _]. rewrite Hsome in Hlook.
          injection Hlook as <-. by exists val, blk.
        * destruct (Hve name val blk e Hmem Hblk Hclean) as [ve ->].
          destruct (Hfail ve Hclean) as [_ Hsame].
          rewrite Hsame, lookup_empty in Hlook. done.
      + destruct (Hout name Hname) as [Hnone _].
        rewrite Hnone, lookup_empty in Hlook. done.
    - intros (val & blk & Hmem & Hblk & Hclean).
      by destruct (proj1 (Hin name val blk Hmem Hblk) cleaned Hclean). }
  unfold clean. rewrite Hloop. simpl. split.
  - intros (name & ve & Hfail). exists errors. split; [|done].
    destruct (dict_truthy errors) eqn:Htruthy; [done|].
    apply dict_truthy_false in Htruthy. subst errors.
    assert ((∅ : gmap string ErrorList) !! name = Some [ve]) as Hlook.
    { apply Herrors. by exists ve. }
    by rewrite lookup_empty in Hlook.
  - intros Hnofail. exists result. split; [|done].
    assert (errors = ∅) as ->.
    { apply map_eq. intros name. rewrite lookup_empty.
      destruct (errors !! name) as [errs|] eqn:Hlook; [|done].
      apply Herrors in Hlook as (ve & _ & Hfail). destruct Hnofail. by exists name, ve. }
    by rewrite (proj2 (dict_truthy_false _) eq_refl).
Qed.

End cleaning.

Lemma clean_validates_every_entry_witness :
  let value : odict Examples.pyval := [("a", Examples.PyStr "x"); ("b", Examples.PyInt (-1))] in
  NoDup (py_items value).*1
  ∧ (∀ name, name ∈ (py_items value).*1 →
       is_Some (od_get name (child_blocks Examples.ab_block)))
  ∧ (∀ name val blk e, (name, val) ∈ py_items value →
       od_get name (child_blocks Examples.ab_block) = Some blk →
       block_clean blk val = Raises e → ∃ ve, e = ValidationErr ve)
  ∧ ∃ errors,
      clean Examples.ab_block value
      = Raises (ValidationErr
                  (MkValidationError "Validation error in StructBlock" (Some errors)))
      ∧ errors !! "b" = Some [MkValidationError "Enter a non-negative number." None]
      ∧ errors !! "a" = None.
Proof.
  intros value.
  assert (NoDup (py_items value).*1) as Hnd by compute_done.
  assert (∀ name, name ∈ (py_items value).*1 →
            is_Some (od_get name (child_blocks Examples.ab_block))) as Hdecl.
  { intros name Hname. simpl in Hname.
    apply elem_of_cons in Hname as [->|Hname]; [by eexists|].
    apply list_elem_of_singleton in Hname as ->. by eexists. }
  assert (∀ name val blk e, (name, val) ∈ py_items value →
            od_get name (child_blocks Examples.ab_block) = Some blk →
            block_clean blk val = Raises e → ∃ ve, e = ValidationErr ve) as Hve.
  { intros name val blk e Hmem Hblk Hraise.
    apply elem_of_cons in Hmem as [Heq|Hmem].
    - injection Heq as -> ->. injection Hblk as <-. discriminate Hraise.
    - apply list_elem_of_singleton in Hmem. injection Hmem as -> ->.
      injection Hblk as <-. injection Hraise as <-. by eexists. }
  split; [exact Hnd|]. split; [exact Hdecl|]. split; [exact Hve|].
  destruct (clean_validates_every_entry Examples.ab_block value Hnd Hdecl Hve)
    as [Hfail _].
  destruct Hfail as (errors & Hclean & Herrors).
  { exists "b", (MkValidationError "Enter a non-negative number." None).
    exists (Examples.PyInt (-1)), Examples.int_block.
    split; [right; left|]. split; reflexivity. }
  exists errors. split; [exact Hclean|]. split.
  - apply Herrors. eexists. split; [reflexivity|].
    exists (Examples.PyInt (-1)), Examples.int_block.
    split; [right; left|]. split; reflexivity.
  - destruct (errors !! "a") as [errs|] eqn:Ha; [|reflexivity].
    apply Herrors in Ha as (e & _ & val & blk & Hmem & Hblk & Hbad).
    exfalso. simpl in Hblk. injection Hblk as <-.
    apply elem_of_cons in Hmem as [Heq|Hmem].
    + by simplify_eq/=.
    + apply list_elem_of_singleton in Hmem. by simplify_eq.
Defined.

(** C1, as stated for every input value, fails in two ways.  With an entry
    [zzz] that is not a child block, field [b] fails validation and yet
    [clean] raises [KeyError], not the aggregated [ValidationError]; with
    that entry alone no field fails and yet [clean] returns nothing.  And
    with every name a child block, when a child block is itself a struct
    block and its own value has an entry it does not know, field [title]
    fails validation and yet [clean] raises the child's [KeyError]. *)
Lemma clean_unknown_name_counterexample :
  let value : odict Examples.pyval := [("b", Examples.PyInt (-1)); ("zzz", Examples.PyInt 1)] in
  let nested : odict Examples.pyval :=
    [("title", Examples.PyStr EmptyString);
     ("inner", Examples.PyDict [("zzz", Examples.PyInt 1)])] in
  (od_get "b" (child_blocks Examples.ab_block) = Some Examples.int_block
   ∧ block_clean Examples.int_block (Examples.PyInt (-1))
     = Raises (ValidationErr (MkValidationError "Enter a non-negative number." None)))
  ∧ clean Examples.ab_block value = Raises (KeyError "zzz")
  ∧ ¬ (∃ e, clean Examples.ab_block value = Raises (ValidationErr e))
  ∧ clean Examples.ab_block ([("zzz", Examples.PyInt 1)] : odict Examples.pyval)
    = Raises (KeyError "zzz")
  ∧ (od_get "title" (child_blocks Examples.outer_block) = Some Examples.char_block
     ∧ od_get "inner" (child_blocks Examples.outer_block) = Some Examples.inner_block
     ∧ block_clean Examples.char_block (Examples.PyStr EmptyString)
       = Raises (ValidationErr (MkValidationError "This field is required." None)))
  ∧ clean Examples.outer_block nested = Raises (KeyError "zzz")
  ∧ ¬ (∃ e, clean Examples.outer_block nested = Raises (ValidationErr e)).
Proof.
  intros value nested. split_and!; try reflexivity.
  - intros [e He]. discriminate He.
  - intros [e He]. discriminate He.
Qed.


(** ** Conversions *)

Lemma od_get_elem {A} k (a : A) (d : odict A) :
  NoDup d.*1 → (k, a) ∈ d → od_get k d = Some a.
Proof.
  intros Hnd [i Hi]%list_elem_of_lookup_1. by eapply od_get_lookup.
Qed.

Lemma extend_all {A B} (f : A → list B) (l : list A) (acc : list B) :
  foldl (fun content x => content ++ f x) acc l = acc ++ concat (f <$> l).
Proof.
  revert acc. induction l as [|x l IH]; intros acc; simpl.
  - by rewrite app_nil_r.
  - rewrite IH. by rewrite <- app_assoc.
Qed.

Lemma mapM_Returns_inv {A B} (f : A → outcome B) (l : list A) (k : list B) :
  mapM f l = Returns k → Forall2 (fun x y => f x = Returns y) l k.
Proof.
  revert k. induction l as [|x l IH]; intros k Hk; simpl in Hk.
  - injection Hk as <-. constructor.
  - destruct (f x) as [y|] eqn:Hx; simpl in Hk; [|done].
    destruct (mapM f l) as [k'|] eqn:Hl; simpl in Hk; [|done].
    injection Hk as <-. constructor; [done|]. by apply IH.
Qed.

Lemma mapM_fmap_returns {A B C} (f : B → outcome C) (g : A → B) (h : A → C) (l : list A) :
  (∀ x, x ∈ l → f (g x) = Returns (h x)) → mapM f (g <$> l) = Returns (h <$> l).
Proof.
  induction l as [|x l IH]; intros Hf; [done|].
  rewrite !fmap_cons. simpl. rewrite (Hf x) by left. simpl.
  rewrite IH; [done|]. intros y Hy. apply Hf. by right.
Qed.

Section conversions.
Context {V Data Files Kwargs M : Type} `{!PyMapping V M}.
Implicit Types (self : @BaseStructBlock V Data Files Kwargs) (value : M).

Lemma to_python_entries self value :
  NoDup (child_blocks self).*1 →
  entries (to_python self value)
  = (fun '(name, blk) =>
       (name, block_to_python blk (py_get_default name value (meta_default blk))))
    <$> child_blocks self.
Proof.
  intros Hnd. unfold to_python, mkStructValue. simpl.
  apply od_of_list_NoDup.
  by rewrite (od_keys_fmap (fun name blk =>
                block_to_python blk (py_get_default name value (meta_default blk)))).
Qed.

Lemma value_from_datadict_entries self (data : Data) (files : Files) prefix :
  NoDup (child_blocks self).*1 →
  entries (value_from_datadict self data files prefix)
  = (fun '(name, blk) =>
       (name, block_value_from_datadict blk data files (prefix +:+ "-" +:+ name)))
    <$> child_blocks self.
Proof.
  intros Hnd. unfold value_from_datadict, mkStructValue. simpl.
  apply od_of_list_NoDup.
  by rewrite (od_keys_fmap (fun name blk =>
                block_value_from_datadict blk data files (prefix +:+ "-" +:+ name))).
Qed.

Lemma get_searchable_content_concat self value :
  get_searchable_content self value
  = concat ((fun '(name, blk) =>
               block_get_searchable_content blk
                 (py_get_default name value (meta_default blk)))
            <$> child_blocks self).
Proof.
  unfold get_searchable_content.
  etrans; [|apply (extend_all (fun '(name, blk) =>
               block_get_searchable_content blk
                 (py_get_default name value (meta_default blk))) _ [])].
  generalize (@nil string).
  induction (child_blocks self) as [|[name blk] l IH]; intros acc; [done|].
  simpl. apply IH.
Qed.

(** The pairs [get_prep_value] builds, when it builds them all. *)
Lemma get_prep_value_pairs self value prepped :
  get_prep_value self value = Returns prepped →
  ∃ pairs, prepped = py_dict pairs
           ∧ pairs.*1 = (py_items value).*1
           ∧ Forall2 (fun '(name, val) '(name', val') =>
                        name' = name ∧ ∃ blk, od_get name (child_blocks self) = Some blk
                                              ∧ val' = block_get_prep_value blk val)
                     (py_items value) pairs.
Proof.
  unfold get_prep_value. intros Hrun.
  destruct (mapM _ (py_items value)) as [pairs|] eqn:Hpairs; simpl in Hrun; [|done].
  injection Hrun as <-. exists pairs. split; [done|].
  apply mapM_Returns_inv in Hpairs.
  induction Hpairs as [|[name val] [name' val'] items pairs Hx _ IH]; [by split|].
  unfold od_getitem in Hx.
  destruct (od_get name (child_blocks self)) as [blk|] eqn:Hblk; simpl in Hx; [|done].
  injection Hx as <- <-. destruct IH as [IHk IHf]. split.
  - rewrite !fmap_cons. simpl. by f_equal.
  - constructor; [|done]. split; [done|]. by exists blk.
Qed.

Lemma get_prep_value_keys self value prepped name :
  get_prep_value self value = Returns prepped →
  is_Some (prepped !! name) ↔ name ∈ (py_items value).*1.
Proof.
  intros (pairs & -> & Hkeys & _)%get_prep_value_pairs. rewrite <- Hkeys.
  clear Hkeys. unfold py_dict. split.
  - intros Hsome. destruct (decide (name ∈ pairs.*1)) as [|Hnot]; [done|].
    rewrite py_dict_acc_lookup, lookup_empty in Hsome by done.
    by destruct Hsome.
  - generalize (∅ : gmap string V).
    induction pairs as [|[k a] pairs IH]; intros m Hin; simpl in *.
    + by apply elem_of_nil in Hin.
    + destruct (decide (name ∈ pairs.*1)) as [Hlater|Hnot]; [by apply IH|].
      apply elem_of_cons in Hin as [->|?]; [|done].
      rewrite py_dict_acc_lookup by done. rewrite lookup_insert_eq. by eexists.
Qed.
End conversions.

(** ** The cached [bound_blocks] view *)

Section bound_view.
Context {V Data Files Kwargs : Type}.
Variable PyNone : V.
Implicit Types (sv : @StructValue V Data Files Kwargs).

Lemma bound_blocks_body_entries sv :
  NoDup (child_blocks (block sv)).*1 →
  bound_blocks_body PyNone sv
  = (fun '(name, blk) => (name, (blk, default PyNone (od_get name (entries sv)))))
    <$> child_blocks (block sv).
Proof.
  intros Hnd. unfold bound_blocks_body, bind, BoundBlock. apply od_of_list_NoDup.
  by rewrite (od_keys_fmap (fun name (blk : Block) =>
                (blk, default PyNone (od_get name (entries sv))))).
Qed.

(** Once the slot is filled, nothing runs the body again and every read
    returns the stored result, whatever is assigned in between. *)
Lemma sv_run_cached events sv res :
  bound_cache sv = Some res →
  (sv_run PyNone events sv).2 = 0
  ∧ Forall (eq res) (sv_run PyNone events sv).1.2.
Proof.
  revert sv. induction events as [|[|name val] events IH]; intros sv Hcache; simpl.
  - by split.
  - unfold bound_blocks. rewrite Hcache.
    destruct (IH sv Hcache) as [Hruns Hreads].
    destruct (sv_run PyNone events sv) as [[final reads] n]. simpl in *.
    split; [done|]. by constructor.
  - by apply IH.
Qed.

Lemma sv_run_first_read events sv :
  bound_cache sv = None →
  (sv_run PyNone (ReadBoundBlocks :: events) sv).2 = 1
  ∧ Forall (eq (bound_blocks_body PyNone sv))
           (sv_run PyNone (ReadBoundBlocks :: events) sv).1.2.
Proof.
  intros Hcache. simpl. unfold bound_blocks. rewrite Hcache.
  set (sv' := {| block := block sv; entries := entries sv;
                 bound_cache := Some (bound_blocks_body PyNone sv) |}).
  destruct (sv_run_cached events sv' (bound_blocks_body PyNone sv) eq_refl)
    as [Hruns Hreads].
  destruct (sv_run PyNone events sv') as [[final reads] n]. simpl in *.
  split; [by rewrite Hruns|]. by constructor.
Qed.

Lemma sv_run_at_most_once events sv :
  bound_cache sv = None →
  (sv_run PyNone events sv).2 ≤ 1
  ∧ ∃ res, Forall (eq res) (sv_run PyNone events sv).1.2.
Proof.
  revert sv. induction events as [|[|name val] events IH]; intros sv Hcache.
  - simpl. split; [lia|]. exists []. constructor.
  - destruct (sv_run_first_read events sv Hcache) as [-> Hreads].
    split; [lia|]. by eexists.
  - simpl. by apply IH.
Qed.
End bound_view.

(** ** Round trip, field order and defaults *)

Section struct_values.
Context {V Data Files Kwargs M : Type} `{!PyMapping V M}.
Variable PyNone : V.
Implicit Types (self : @BaseStructBlock V Data Files Kwargs) (value : M).

(** C3.  For a struct block whose child blocks each satisfy
    [to_python (get_prep_value (to_python x)) = to_python x], and every
    input [v]: [get_prep_value] succeeds on [to_python v], and [to_python]
    of its result is [to_python v] again. *)
Theorem to_python_round_trip self value :
  NoDup (child_blocks self).*1 →
  (∀ name blk, (name, blk) ∈ child_blocks self →
     ∀ x, block_to_python blk (block_get_prep_value blk (block_to_python blk x))
          = block_to_python blk x) →
  ∃ prepped,
    get_prep_value self (to_python self value) = Returns prepped
    ∧ to_python self prepped = to_python self value.
Proof.
  intros Hnd Hlaw.
  set (py := fun '(name, blk) =>
         (name, block_to_python (Data := Data) (Files := Files) blk
                  (py_get_default name value (meta_default blk)))).
  set (prep := fun '(name, blk) =>
         (name, block_get_prep_value (Data := Data) (Files := Files) blk
                  (block_to_python blk (py_get_default name value (meta_default blk))))).
  assert (get_prep_value self (to_python self value)
          = Returns (py_dict (prep <$> child_blocks self))) as Hprep.
  { unfold get_prep_value.
    change (py_items (to_python self value)) with (entries (to_python self value)).
    rewrite to_python_entries by done. fold py.
    rewrite (mapM_fmap_returns _ py prep); [done|].
    intros [name blk] Hin. simpl. unfold od_getitem.
    by rewrite (od_get_elem name blk _ Hnd Hin). }
  exists (py_dict (prep <$> child_blocks self)). split; [done|].
  unfold to_python. f_equal. apply list_fmap_ext. intros i [name blk] Hi.
  f_equal. unfold py_get_default at 1. simpl.
  rewrite (py_dict_lookup_Some _ name
             (block_get_prep_value blk
                (block_to_python blk (py_get_default name value (meta_default blk))))).
  - simpl. apply (Hlaw name blk). by eapply list_elem_of_lookup_2.
  - unfold prep.
    by rewrite (od_keys_fmap (fun name blk =>
         block_get_prep_value blk
           (block_to_python blk (py_get_default name value (meta_default blk))))).
  - apply (list_elem_of_fmap_2 prep _ (name, blk)). by eapply list_elem_of_lookup_2.
Qed.

(** C4 (amended).  The declaration order of the child blocks is the order
    of the outputs of [value_from_datadict], [to_python] and [bound_blocks],
    which hold one entry per child block in that order, and of the fragments
    [get_searchable_content] concatenates.  [get_prep_value] returns a plain
    dict, not a struct value, keyed by the names of the input value's
    entries. *)
Theorem declaration_order_preserved self value (data : Data) (files : Files) prefix :
  NoDup (child_blocks self).*1 →
  entries (value_from_datadict self data files prefix)
  = ((fun '(name, blk) =>
        (name, block_value_from_datadict blk data files (prefix +:+ "-" +:+ name)))
     <$> child_blocks self)
  ∧ entries (to_python self value)
    = ((fun '(name, blk) =>
          (name, block_to_python blk (py_get_default name value (meta_default blk))))
       <$> child_blocks self)
  ∧ get_searchable_content self value
    = concat ((fun '(name, blk) =>
                 block_get_searchable_content blk
                   (py_get_default name value (meta_default blk)))
              <$> child_blocks self)
  ∧ (∀ sv, block sv = self → bound_cache sv = None →
       (bound_blocks PyNone sv).1.1
       = ((fun '(name, blk) => (name, (blk, default PyNone (od_get name (entries sv)))))
          <$> child_blocks self))
  ∧ (entries (value_from_datadict self data files prefix)).*1 = (child_blocks self).*1
  ∧ (entries (to_python self value)).*1 = (child_blocks self).*1
  ∧ (∀ sv, block sv = self → bound_cache sv = None →
       (bound_blocks PyNone sv).1.1.*1 = (child_blocks self).*1)
  ∧ (∀ prepped : gmap string V, get_prep_value self value = Returns prepped →
       ∀ name, is_Some (prepped !! name) ↔ name ∈ (py_items value).*1).
Proof.
  intros Hnd. split_and!.
  - by apply value_from_datadict_entries.
  - by apply to_python_entries.
  - apply get_searchable_content_concat.
  - intros sv <- Hcache. unfold bound_blocks. rewrite Hcache. simpl.
    by apply bound_blocks_body_entries.
  - rewrite value_from_datadict_entries by done.
    apply (od_keys_fmap (fun name blk =>
             block_value_from_datadict blk data files (prefix +:+ "-" +:+ name))).
  - rewrite to_python_entries by done.
    apply (od_keys_fmap (fun name blk =>
             block_to_python blk (py_get_default name value (meta_default blk)))).
  - intros sv <- Hcache. unfold bound_blocks. rewrite Hcache. simpl.
    rewrite bound_blocks_body_entries by done.
    apply (od_keys_fmap (fun name (blk : Block) =>
             (blk, default PyNone (od_get name (entries sv))))).
  - intros prepped Hprep name. by eapply get_prep_value_keys.
Qed.

(** C5 (amended).  For a declared field absent from the input value,
    [render_form], [to_python] and [get_searchable_content] give the
    field's block its configured default in place of the value;
    [get_prep_value] does not: its result has no entry for that field. *)
Theorem absent_field_defaults self value i name blk :
  NoDup (child_blocks self).*1 →
  child_blocks self !! i = Some (name, blk) →
  py_get name value = None →
  name ∉ (py_items value).*1 →
  (∀ prefix error_dict renderings,
     child_renderings self value prefix error_dict = Returns renderings →
     ∃ errors, error_dict_get error_dict name = Returns errors
               ∧ renderings !! i
                 = Some (block_render_form blk (meta_default blk)
                           (prefix +:+ "-" +:+ name) errors))
  ∧ entries (to_python self value) !! i
    = Some (name, block_to_python blk (meta_default blk))
  ∧ (∃ fragments,
       get_searchable_content self value = concat fragments
       ∧ length fragments = length (child_blocks self)
       ∧ fragments !! i = Some (block_get_searchable_content blk (meta_default blk)))
  ∧ (∀ prepped, get_prep_value self value = Returns prepped → prepped !! name = None).
Proof.
  intros Hnd Hi Hget Hitems.
  assert (py_get_default name value (meta_default blk) = meta_default blk) as Hdef.
  { unfold py_get_default. by rewrite Hget. }
  split_and!.
  - intros prefix error_dict renderings Hrun. unfold child_renderings in Hrun.
    apply mapM_Returns_inv in Hrun.
    destruct (Forall2_lookup_l _ _ _ _ _ Hrun Hi) as (r & Hr & Hf).
    simpl in Hf. rewrite Hdef in Hf.
    destruct (error_dict_get error_dict name) as [errors|]; simpl in Hf; [|done].
    injection Hf as <-. by exists errors.
  - rewrite to_python_entries by done.
    rewrite list_lookup_fmap, Hi. simpl. by rewrite Hdef.
  - eexists. split; [apply get_searchable_content_concat|].
    split; [by rewrite length_fmap|].
    rewrite list_lookup_fmap, Hi. simpl. by rewrite Hdef.
  - intros prepped Hprep.
    destruct (prepped !! name) eqn:Hlook; [|done].
    destruct Hitems. eapply get_prep_value_keys; [done|]. by eexists.
Qed.

(** C6 (amended).  [bound_blocks] runs its body at most once in the life of
    a struct value: the first read stores the result on the instance and
    every later read returns it, whatever is assigned to the instance in
    between.  The result is an ordered mapping with one entry per child
    block, in declaration order, pairing the block with the instance's
    value for that name, or with [None] when the instance has none. *)
Theorem bound_blocks_cached_view (sv : @StructValue V Data Files Kwargs) :
  NoDup (child_blocks (block sv)).*1 →
  bound_cache sv = None →
  let view :=
    (fun '(name, blk) => (name, (blk, default PyNone (od_get name (entries sv)))))
    <$> child_blocks (block sv) in
  (bound_blocks PyNone sv).1.1 = view
  ∧ (∀ events,
       (sv_run PyNone (ReadBoundBlocks :: events) sv).2 = 1
       ∧ Forall (eq view) (sv_run PyNone (ReadBoundBlocks :: events) sv).1.2)
  ∧ (∀ events,
       (sv_run PyNone events sv).2 ≤ 1
       ∧ ∃ res, Forall (eq res) (sv_run PyNone events sv).1.2).
Proof.
  intros Hnd Hcache view.
  assert (bound_blocks_body PyNone sv = view) as Hbody
    by (by apply bound_blocks_body_entries).
  split_and!.
  - unfold bound_blocks. by rewrite Hcache.
  - intros events. rewrite <- Hbody. by apply sv_run_first_read.
  - intros events. by apply sv_run_at_most_once.
Qed.
End struct_values.

Lemma to_python_round_trip_witness :
  let value : gmap string Examples.pyval := {[ "b" := Examples.PyInt (-3) ]} in
  NoDup (child_blocks Examples.ab_block).*1
  ∧ (∀ name blk, (name, blk) ∈ child_blocks Examples.ab_block →
       ∀ x, block_to_python blk (block_get_prep_value blk (block_to_python blk x))
            = block_to_python blk x)
  ∧ ∃ prepped,
      get_prep_value Examples.ab_block (to_python Examples.ab_block value) = Returns prepped
      ∧ to_python Examples.ab_block prepped = to_python Examples.ab_block value.
Proof.
  intros value.
  assert (NoDup (child_blocks Examples.ab_block).*1) as Hnd by compute_done.
  assert (∀ name blk, (name, blk) ∈ child_blocks Examples.ab_block →
            ∀ x, block_to_python blk (block_get_prep_value blk (block_to_python blk x))
                 = block_to_python blk x) as Hlaw.
  { intros name blk Hin x. simpl in Hin.
    apply elem_of_cons in Hin as [Heq|Hin].
    - injection Heq as -> ->. reflexivity.
    - apply list_elem_of_singleton in Hin. injection Hin as -> ->.
      destruct x as [|z|s|items]; simpl; [reflexivity| |reflexivity|reflexivity].
      f_equal. apply Z.abs_idemp. }
  split; [exact Hnd|]. split; [exact Hlaw|].
  exact (to_python_round_trip Examples.ab_block value Hnd Hlaw).
Defined.

Lemma declaration_order_preserved_witness :
  let value : gmap string Examples.pyval := {[ "b" := Examples.PyInt (-3) ]} in
  NoDup (child_blocks Examples.ba_block).*1
  ∧ (entries (to_python Examples.ba_block value)).*1 = ["b"; "a"]
  ∧ (entries (value_from_datadict Examples.ba_block (∅ : Examples.Data) () "page")).*1
    = ["b"; "a"].
Proof.
  intros value.
  assert (NoDup (child_blocks Examples.ba_block).*1) as Hnd by compute_done.
  split; [exact Hnd|].
  destruct (declaration_order_preserved Examples.PyNone Examples.ba_block value
              (∅ : Examples.Data) () "page" Hnd) as (_ & _ & _ & _ & Hdata & Hpy & _).
  split; [exact Hpy|exact Hdata].
Defined.

(** C4, for [get_prep_value], fails: the block declares [b] before [a], the
    input value lists [a] before [b], the pairs are built in the value's
    order and the dict [get_prep_value] returns iterates [a] before [b]. *)
Lemma get_prep_value_order_counterexample :
  let value : odict Examples.pyval := [("a", Examples.PyStr "x"); ("b", Examples.PyInt 1)] in
  (child_blocks Examples.ba_block).*1 = ["b"; "a"]
  ∧ (py_items value).*1 = ["a"; "b"]
  ∧ ∃ prepped,
      get_prep_value Examples.ba_block value = Returns prepped
      ∧ dict_keys prepped = ["a"; "b"]
      ∧ dict_keys prepped ≠ (child_blocks Examples.ba_block).*1.
Proof.
  intros value. split; [reflexivity|]. split; [reflexivity|].
  exists (py_dict [("a", Examples.PyStr "x"); ("b", Examples.PyInt 1)]).
  split; [reflexivity|]. split; [by vm_compute|].
  vm_compute. discriminate.
Qed.

Lemma absent_field_defaults_witness :
  let value : odict Examples.pyval := [("a", Examples.PyStr "x")] in
  NoDup (child_blocks Examples.ab_block).*1
  ∧ child_blocks Examples.ab_block !! 1 = Some ("b", Examples.int_block)
  ∧ py_get "b" value = (None : option Examples.pyval)
  ∧ ("b" ∉ (py_items value).*1)
  ∧ entries (to_python Examples.ab_block value) !! 1 = Some ("b", Examples.PyInt 7)
  ∧ (∀ prepped, get_prep_value Examples.ab_block value = Returns prepped →
       prepped !! "b" = None).
Proof.
  intros value.
  assert (NoDup (child_blocks Examples.ab_block).*1) as Hnd by compute_done.
  assert ("b" ∉ (py_items value).*1) as Habs by compute_done.
  assert (py_get "b" value = (None : option Examples.pyval)) as Hget by reflexivity.
  split; [exact Hnd|]. split; [reflexivity|]. split; [exact Hget|].
  split; [exact Habs|].
  destruct (absent_field_defaults Examples.ab_block value 1 "b" Examples.int_block
              Hnd eq_refl Hget Habs) as (_ & Hpy & _ & Hprep).
  split; [exact Hpy|exact Hprep].
Defined.

(** C5, for [get_prep_value], fails: field [b] is absent from the value and
    the result has no entry for it, where the claim puts the prepared
    default. *)
Lemma get_prep_value_default_counterexample :
  let value : odict Examples.pyval := [("a", Examples.PyStr "x")] in
  od_get "b" (child_blocks Examples.ab_block) = Some Examples.int_block
  ∧ py_get "b" value = (None : option Examples.pyval)
  ∧ ∃ prepped,
      get_prep_value Examples.ab_block value = Returns prepped
      ∧ prepped !! "b" = None
      ∧ prepped !! "b"
        ≠ Some (block_get_prep_value Examples.int_block (meta_default Examples.int_block)).
Proof.
  intros value. split; [reflexivity|]. split; [reflexivity|].
  exists (py_dict [("a", Examples.PyStr "x")]).
  split; [reflexivity|]. split; [by vm_compute|].
  vm_compute. discriminate.
Qed.

Lemma bound_blocks_cached_view_witness :
  let sv := mkStructValue Examples.ab_block [("a", Examples.PyStr "x")] in
  NoDup (child_blocks (block sv)).*1
  ∧ bound_cache sv = None
  ∧ (bound_blocks Examples.PyNone sv).1.1
    = [("a", (Examples.char_block, Examples.PyStr "x"));
       ("b", (Examples.int_block, Examples.PyNone))]
  ∧ (sv_run Examples.PyNone
       [ReadBoundBlocks; SetItem "b" (Examples.PyInt 2); ReadBoundBlocks] sv).2 = 1.
Proof.
  intros sv.
  assert (NoDup (child_blocks (block sv)).*1) as Hnd by compute_done.
  split; [exact Hnd|]. split; [reflexivity|].
  destruct (bound_blocks_cached_view Examples.PyNone sv Hnd eq_refl) as (Hview & Hruns & _).
  split; [exact Hview|].
  exact (proj1 (Hruns [SetItem "b" (Examples.PyInt 2); ReadBoundBlocks])).
Defined.

(** C6, for an absent field, fails: the instance has no [b], the block's
    default for [b] is 7, and [bound_blocks] binds [b] to [None]. *)
Lemma bound_blocks_absent_counterexample :
  let sv := mkStructValue Examples.ab_block [("a", Examples.PyStr "x")] in
  od_get "b" (entries sv) = None
  ∧ meta_default Examples.int_block = Examples.PyInt 7
  ∧ od_get "b" (bound_blocks Examples.PyNone sv).1.1
    = Some (Examples.int_block, Examples.PyNone)
  ∧ od_get "b" (bound_blocks Examples.PyNone sv).1.1
    ≠ Some (Examples.int_block, meta_default Examples.int_block).
Proof.
  intros sv. split_and!; try reflexivity.
  simpl. intros Heq. discriminate Heq.
Qed.

(** ** More on construction *)

Section construction_more.
Context {V Data Files Kwargs : Type}.
Variable set_name : string → @Block V Data Files → @Block V Data Files.
Variable label_of_kwargs : Kwargs → string.
Variable js_dict : gmap string string → string.

Abbreviation Blk := (@Block V Data Files).
Abbreviation store := (list (odict Blk)).
Abbreviation merge := (foldl (fun (d : odict Blk) '(n, b) => od_set n (set_name n b) d)).
Abbreviation collect_js :=
  (foldl (fun (js : gmap string string) '(name, block) =>
            match block_js_initializer (V := V) (Data := Data) (Files := Files) block with
            | Some js_initializer => <[name := js_initializer]> js
            | None => js
            end)).

Lemma setitems_length (l : list (string * Blk)) (h : store) cb :
  length (foldl (fun h '(n, b) => od_setitem cb n (set_name n b) h) h l) = length h.
Proof.
  revert h. induction l as [|[n b] l IH]; intros h; simpl; [done|].
  rewrite IH. unfold od_setitem. apply length_alter.
Qed.

(** The fields [__init__] sets besides [child_blocks], and the one object
    it adds to the store. *)
Lemma init_fields cls local_blocks kwargs (h : store) self h' :
  __init__ set_name label_of_kwargs cls local_blocks kwargs h = Some (self, h') →
  child_js_initializers self = collect_js ∅ (child_blocks self)
  ∧ dependencies self = (child_blocks self).*2
  ∧ label self = label_of_kwargs kwargs
  ∧ length h' = S (length h).
Proof.
  unfold __init__, od_copy. intros Hinit.
  destruct (h !! base_blocks cls) as [base|]; simpl in Hinit; [|done].
  match type of Hinit with
  | context [?hh !! length h] => set (h2 := hh) in *
  end.
  assert (length h2 = S (length h)) as Hlen.
  { unfold h2. destruct local_blocks as [[|[n b] l]|];
      rewrite ?setitems_length, length_app; simpl; lia. }
  destruct (h2 !! length h) as [children|]; simpl in Hinit; [|done].
  injection Hinit as <- <-. by simpl.
Qed.

Lemma collect_js_lookup (l : odict Blk) (js : gmap string string) name :
  NoDup l.*1 →
  collect_js js l !! name
  = match od_get name l ≫= block_js_initializer with
    | Some js_initializer => Some js_initializer
    | None => js !! name
    end.
Proof.
  revert js. induction l as [|[n b] l IH]; intros js Hnd; [done|].
  simpl in Hnd. apply NoDup_cons in Hnd as [Hn Hnd].
  simpl. rewrite IH by done. destruct (decide (name = n)) as [->|Hne].
  - apply od_get_None in Hn. rewrite Hn. simpl.
    destruct (block_js_initializer b); [by rewrite lookup_insert_eq|done].
  - destruct (od_get name l ≫= block_js_initializer); [done|].
    destruct (block_js_initializer b); [by rewrite lookup_insert_ne|done].
Qed.

(** X1.  On a constructed struct block, [child_js_initializers] maps a name
    to an initializer exactly when the child block of that name has one, and
    then to that one; [dependencies] lists the child blocks in declaration
    order. *)
Theorem init_collects_js_initializers cls local_blocks kwargs (h : store) base :
  h !! base_blocks cls = Some base →
  NoDup base.*1 →
  ∃ self h',
    __init__ set_name label_of_kwargs cls local_blocks kwargs h = Some (self, h')
    ∧ (∀ name, child_js_initializers self !! name
               = od_get name (child_blocks self) ≫= block_js_initializer)
    ∧ dependencies self = (child_blocks self).*2.
Proof.
  intros Hbase Hnd.
  destruct (init_spec set_name label_of_kwargs cls local_blocks kwargs h base Hbase)
    as (self & h' & Hinit & Hch & _).
  destruct (init_fields _ _ _ _ _ _ Hinit) as (Hjs & Hdeps & _).
  exists self, h'. split_and!; [done| |done].
  intros name. rewrite Hjs, collect_js_lookup.
  - rewrite lookup_empty. by destruct (od_get name (child_blocks self) ≫= _).
  - rewrite Hch. by apply merge_NoDup.
Qed.

(** X2.  A constructed struct block has no [js_initializer] of its own
    exactly when none of its child blocks has one; otherwise it is
    [StructBlock(...)] around [js_dict] of the collected initializers. *)
Theorem js_initializer_none_iff cls local_blocks kwargs (h : store) base :
  h !! base_blocks cls = Some base →
  NoDup base.*1 →
  ∃ self h',
    __init__ set_name label_of_kwargs cls local_blocks kwargs h = Some (self, h')
    ∧ (js_initializer js_dict self = None ↔
       ∀ name blk, (name, blk) ∈ child_blocks self → block_js_initializer blk = None)
    ∧ (js_initializer js_dict self = None
       ∨ js_initializer js_dict self
         = Some ("StructBlock(" +:+ js_dict (child_js_initializers self) +:+ ")")).
Proof.
  intros Hbase Hnd.
  destruct (init_spec set_name label_of_kwargs cls local_blocks kwargs h base Hbase)
    as (self & h' & Hinit & Hch & _).
  destruct (init_fields _ _ _ _ _ _ Hinit) as (Hjs & _).
  assert (NoDup (child_blocks self).*1) as Hnd' by (rewrite Hch; by apply merge_NoDup).
  assert (∀ name, child_js_initializers self !! name
                  = od_get name (child_blocks self) ≫= block_js_initializer) as Hlook.
  { intros name. rewrite Hjs, collect_js_lookup by done.
    rewrite lookup_empty. by destruct (od_get name (child_blocks self) ≫= _). }
  exists self, h'. split; [done|]. unfold js_initializer.
  destruct (dict_truthy (child_js_initializers self)) eqn:Htruthy; simpl.
  - split; [|by right]. split; [done|]. intros Hnone. exfalso.
    assert (child_js_initializers self = ∅) as Hempty.
    { apply map_eq. intros name. rewrite Hlook, lookup_empty.
      destruct (od_get name (child_blocks self)) as [blk|] eqn:Hget; [|done].
      simpl. eapply Hnone. by apply od_get_Some_elem. }
    apply dict_truthy_false in Hempty. congruence.
  - split; [|by left]. split; [|done]. intros _ name blk Hin.
    apply dict_truthy_false in Htruthy.
    specialize (Hlook name). rewrite Htruthy, lookup_empty in Hlook.
    by rewrite (od_get_elem name blk _ Hnd' Hin) in Hlook.
Qed.

Lemma merge_named (l d : odict Blk) :
  NoDup (d ++ l).*1 →
  (∀ name b, (name, b) ∈ l → set_name name b = b) →
  merge d l = d ++ l.
Proof.
  revert d. induction l as [|[n b] l IH]; intros d Hnd Hnamed; simpl.
  - by rewrite app_nil_r.
  - assert (n ∉ d.*1) as Hn.
    { rewrite fmap_app in Hnd. apply NoDup_app in Hnd as (_ & Hdisj & _).
      intros Hin. apply (Hdisj _ Hin). simpl. left. }
    rewrite od_set_fresh by done. rewrite (Hnamed n b) by left.
    rewrite IH.
    + by rewrite <- app_assoc.
    + by rewrite <- app_assoc.
    + intros name b' Hin. apply Hnamed. by right.
Qed.

(** X3.  What [deconstruct] returns rebuilds the block: constructing a plain
    [StructBlock] (no declared fields) from the returned pairs and keyword
    arguments gives the same [child_blocks], in the same order, and
    deconstructs to the same triple, provided the child blocks already carry
    their names. *)
Theorem deconstruct_reconstructs (self : @BaseStructBlock V Data Files Kwargs)
    plain (h : store) path pairs kwargs :
  NoDup (child_blocks self).*1 →
  (∀ name b, (name, b) ∈ child_blocks self → set_name name b = b) →
  h !! base_blocks plain = Some [] →
  deconstruct self = (path, [pairs], kwargs) →
  ∃ self' h',
    __init__ set_name label_of_kwargs plain (Some pairs) kwargs h = Some (self', h')
    ∧ child_blocks self' = child_blocks self
    ∧ deconstruct self' = deconstruct self.
Proof.
  intros Hnd Hnamed Hplain Hdec. unfold deconstruct in Hdec.
  injection Hdec as <- <- <-.
  destruct (init_spec set_name label_of_kwargs plain (Some (child_blocks self))
              (_constructor_kwargs self) h [] Hplain)
    as (self' & h' & Hinit & Hch & Hkw & _).
  simpl in Hch. rewrite merge_named in Hch by done. simpl in Hch.
  exists self', h'. split_and!; [done|done|].
  unfold deconstruct. by rewrite Hch, Hkw.
Qed.

(** X4.  Instances do not share their [child_blocks]: constructing a second
    struct block, of the same class or another, adds one more object to the
    store and leaves the first instance's [child_blocks] object as it was. *)
Theorem init_instances_independent cls1 local1 kwargs1 cls2 local2 kwargs2
    (h : store) base1 base2 :
  h !! base_blocks cls1 = Some base1 →
  h !! base_blocks cls2 = Some base2 →
  ∃ self1 h1 self2 h2,
    __init__ set_name label_of_kwargs cls1 local1 kwargs1 h = Some (self1, h1)
    ∧ __init__ set_name label_of_kwargs cls2 local2 kwargs2 h1 = Some (self2, h2)
    ∧ h2 !! length h = Some (child_blocks self1)
    ∧ h2 !! length h1 = Some (child_blocks self2)
    ∧ length h1 ≠ length h
    ∧ h2 !! base_blocks cls1 = Some base1
    ∧ h2 !! base_blocks cls2 = Some base2.
Proof.
  intros Hbase1 Hbase2.
  destruct (init_spec set_name label_of_kwargs cls1 local1 kwargs1 h base1 Hbase1)
    as (self1 & h1 & Hinit1 & Hch1 & _ & _ & Hnew1 & Hold1).
  destruct (init_fields _ _ _ _ _ _ Hinit1) as (_ & _ & _ & Hlen1).
  assert (base_blocks cls1 < length h) as Hlt1 by (by eapply lookup_lt_Some).
  assert (base_blocks cls2 < length h) as Hlt2 by (by eapply lookup_lt_Some).
  assert (h1 !! base_blocks cls2 = Some base2) as Hbase2'.
  { rewrite Hold1; [done|lia]. }
  destruct (init_spec set_name label_of_kwargs cls2 local2 kwargs2 h1 base2 Hbase2')
    as (self2 & h2 & Hinit2 & Hch2 & _ & _ & Hnew2 & Hold2).
  exists self1, h1, self2, h2. split_and!; try done.
  - rewrite Hold2 by lia. by rewrite Hnew1, Hch1.
  - by rewrite Hnew2, Hch2.
  - lia.
  - rewrite Hold2 by lia. rewrite Hold1; [done|lia].
  - rewrite Hold2 by lia. done.
Qed.
End construction_more.

Lemma init_collects_js_initializers_witness :
  Examples.person_store !! base_blocks Examples.PersonBlock
    = Some [("title", Examples.char_block); ("body", Examples.char_block)]
  ∧ NoDup ["title"; "body"]
  ∧ ∃ self h',
      __init__ Examples.set_name Examples.label_of_kwargs Examples.PersonBlock
        (Some [("age", Examples.int_block)]) [] Examples.person_store = Some (self, h')
      ∧ child_js_initializers self !! "age"
        = od_get "age" (child_blocks self) ≫= block_js_initializer
      ∧ dependencies self = (child_blocks self).*2.
Proof.
  assert (NoDup ["title"; "body"]) as Hnd by compute_done.
  split; [reflexivity|]. split; [exact Hnd|].
  destruct (init_collects_js_initializers Examples.set_name Examples.label_of_kwargs
              Examples.PersonBlock (Some [("age", Examples.int_block)]) []
              Examples.person_store
              [("title", Examples.char_block); ("body", Examples.char_block)]
              eq_refl Hnd)
    as (self & h' & Hinit & Hjs & Hdeps).
  exists self, h'. split; [exact Hinit|]. split; [apply Hjs|exact Hdeps].
Defined.

Lemma js_initializer_none_iff_witness :
  Examples.person_store !! base_blocks Examples.PersonBlock
    = Some [("title", Examples.char_block); ("body", Examples.char_block)]
  ∧ NoDup ["title"; "body"]
  ∧ ∃ self h',
      __init__ Examples.set_name Examples.label_of_kwargs Examples.PersonBlock
        None [] Examples.person_store = Some (self, h')
      ∧ (js_initializer Examples.js_dict self = None ↔
         ∀ name blk, (name, blk) ∈ child_blocks self → block_js_initializer blk = None).
Proof.
  assert (NoDup ["title"; "body"]) as Hnd by compute_done.
  split; [reflexivity|]. split; [exact Hnd|].
  destruct (js_initializer_none_iff Examples.set_name Examples.label_of_kwargs
              Examples.js_dict Examples.PersonBlock None []
              Examples.person_store
              [("title", Examples.char_block); ("body", Examples.char_block)]
              eq_refl Hnd)
    as (self & h' & Hinit & Hiff & _).
  exists self, h'. split; [exact Hinit|exact Hiff].
Defined.

Lemma deconstruct_reconstructs_witness :
  NoDup (child_blocks Examples.ab_block).*1
  ∧ (∀ name b, (name, b) ∈ child_blocks Examples.ab_block → Examples.set_name name b = b)
  ∧ Examples.plain_store !! base_blocks Examples.PlainStructBlock = Some []
  ∧ ∃ self' h',
      __init__ Examples.set_name Examples.label_of_kwargs Examples.PlainStructBlock
        (Some [("a", Examples.char_block); ("b", Examples.int_block)]) []
        Examples.plain_store = Some (self', h')
      ∧ child_blocks self' = child_blocks Examples.ab_block
      ∧ deconstruct self' = deconstruct Examples.ab_block.
Proof.
  assert (NoDup (child_blocks Examples.ab_block).*1) as Hnd by compute_done.
  assert (∀ name b, (name, b) ∈ child_blocks Examples.ab_block →
            Examples.set_name name b = b) as Hnamed by reflexivity.
  split; [exact Hnd|]. split; [exact Hnamed|]. split; [reflexivity|].
  exact (deconstruct_reconstructs Examples.set_name Examples.label_of_kwargs
           Examples.ab_block Examples.PlainStructBlock Examples.plain_store
           "wagtail.wagtailcore.blocks.StructBlock"
           [("a", Examples.char_block); ("b", Examples.int_block)] []
           Hnd Hnamed eq_refl eq_refl).
Defined.

Lemma init_instances_independent_witness :
  Examples.person_store !! base_blocks Examples.PersonBlock
    = Some [("title", Examples.char_block); ("body", Examples.char_block)]
  ∧ ∃ self1 h1 self2 h2,
      __init__ Examples.set_name Examples.label_of_kwargs Examples.PersonBlock
        (Some [("age", Examples.int_block)]) [] Examples.person_store = Some (self1, h1)
      ∧ __init__ Examples.set_name Examples.label_of_kwargs Examples.PersonBlock
          (Some [("body", Examples.int_block)]) [] h1 = Some (self2, h2)
      ∧ h2 !! 1 = Some (child_blocks self1)
      ∧ h2 !! 0 = Some [("title", Examples.char_block); ("body", Examples.char_block)].
Proof.
  split; [reflexivity|].
  destruct (init_instances_independent Examples.set_name Examples.label_of_kwargs
              Examples.PersonBlock (Some [("age", Examples.int_block)]) []
              Examples.PersonBlock (Some [("body", Examples.int_block)]) []
              Examples.person_store
              [("title", Examples.char_block); ("body", Examples.char_block)]
              [("title", Examples.char_block); ("body", Examples.char_block)]
              eq_refl eq_refl)
    as (self1 & h1 & self2 & h2 & Hinit1 & Hinit2 & Hfirst & _ & _ & Hbase & _).
  exists self1, h1, self2, h2.
  split; [exact Hinit1|]. split; [exact Hinit2|]. split; [exact Hfirst|exact Hbase].
Defined.

(** ** More on rendering *)

Section rendering_more.
Context {V Data Files Kwargs M : Type} `{!PyMapping V M}.
Variable escape : string → string.
Implicit Types (self : @BaseStructBlock V Data Files Kwargs) (value : M).

Lemma child_renderings_without_dict self value prefix :
  child_blocks self ≠ [] →
  child_renderings self value prefix None
  = Raises (AttributeError "'NoneType' object has no attribute 'get'").
Proof.
  unfold child_renderings. by destruct (child_blocks self) as [|[name blk] rest].
Qed.

(** X5.  Without errors, [None] or an empty list alike, [render_form]
    returns the struct's container (after the label when the block has one)
    around one list item per child block, one per line and in order, each
    holding the child's form rendered under [prefix-name] with no errors. *)
Theorem render_form_without_errors self value prefix errors :
  errors = None ∨ errors = Some [] →
  let fragment '(name, blk) :=
    block_render_form blk (py_get_default name value (meta_default blk))
      (prefix +:+ "-" +:+ name) None in
  let markup (t : text) :=
    match t with SafeText s => s | PlainText s => escape s end in
  let quote := String (Ascii.ascii_of_nat 34) EmptyString in
  let newline := String (Ascii.ascii_of_nat 10) EmptyString in
  let items :=
    String.concat newline
      ((fun t => "<li>" +:+ markup t +:+ "</li>") <$> (fragment <$> child_blocks self)) in
  render_form escape self value prefix errors
  = Returns (SafeText
      match label self with
      | EmptyString =>
          "<div class=" +:+ quote +:+ "struct-block" +:+ quote +:+ "><ul>"
          +:+ items +:+ "</ul></div>"
      | String _ _ =>
          "<div class=" +:+ quote +:+ "struct-block" +:+ quote +:+ "><label>"
          +:+ escape (label self) +:+ "</label> <ul>" +:+ items +:+ "</ul></div>"
      end).
Proof.
  intros Herrors fragment markup quote newline items.
  assert (render_form escape self value prefix errors
          = (renderings ← child_renderings self value prefix (Some ∅);
             mret (struct_html escape self renderings))) as ->.
  { by destruct Herrors as [-> | ->]. }
  rewrite child_renderings_with_dict. simpl.
  unfold struct_html, list_items, str_truthy. by destruct (label self).
Qed.

(** X6.  Given a single error that carries no [params], [render_form]
    raises [AttributeError] as soon as the block has a child block; a block
    without child blocks is rendered as an empty container. *)
Theorem render_form_error_without_params self value prefix message :
  (child_blocks self ≠ [] →
   render_form escape self value prefix (Some [MkValidationError message None])
   = Raises (AttributeError "'NoneType' object has no attribute 'get'"))
  ∧ (child_blocks self = [] →
     render_form escape self value prefix (Some [MkValidationError message None])
     = Returns (struct_html escape self [])).
Proof.
  unfold render_form. simpl. split.
  - intros Hne. by rewrite child_renderings_without_dict.
  - intros Hnil. unfold child_renderings. by rewrite Hnil.
Qed.
End rendering_more.

(** ** More on validation and conversions *)

Section values_more.
Context {V Data Files Kwargs : Type}.
Implicit Types (self : @BaseStructBlock V Data Files Kwargs).

(** When every entry names a child block, none of [clean]'s own lookups
    fails: what it raises is the aggregated error or what a child block's
    [clean] raised, other than [ValidationError]. *)
Lemma clean_declared {M} `{!PyMapping V M} self (value : M) e :
  (∀ name, name ∈ (py_items value).*1 → is_Some (od_get name (child_blocks self))) →
  clean self value = Raises e →
  (∃ errors, e = ValidationErr
                   (MkValidationError "Validation error in StructBlock" (Some errors)))
  ∨ (∃ name val blk, (name, val) ∈ py_items value
                     ∧ od_get name (child_blocks self) = Some blk
                     ∧ block_clean blk val = Raises e
                     ∧ ∀ ve, e ≠ ValidationErr ve).
Proof.
  intros Hdecl. unfold clean.
  destruct (clean_loop self (py_items value) ∅ ∅) as [[result errors]|e'] eqn:Hloop;
    simpl.
  - destruct (dict_truthy errors); intros Hrun; [|done].
    injection Hrun as <-. left. by eexists.
  - intros Hrun. injection Hrun as <-.
    destruct (clean_loop_raises self _ _ _ _ Hloop)
      as [(key & _ & Hkey & Hnone)|Hchild]; [|by right].
    destruct (Hdecl key Hkey) as [blk Hblk]. congruence.
Qed.

(** What [get_prep_value] returns when every entry names a child block. *)
Lemma get_prep_value_declared {M} `{!PyMapping V M} self (value : M) :
  NoDup (py_items value).*1 →
  (∀ name, name ∈ (py_items value).*1 → is_Some (od_get name (child_blocks self))) →
  ∃ prepped,
    get_prep_value self value = Returns prepped
    ∧ ∀ name, prepped !! name
              = od_get name (py_items value) ≫= fun val =>
                od_get name (child_blocks self) ≫= fun blk =>
                Some (block_get_prep_value blk val).
Proof.
  intros Hnd Hdecl. unfold get_prep_value.
  set (prep := fun '(name, val) =>
         (name, match od_get name (child_blocks self) with
                | Some blk => block_get_prep_value blk val
                | None => val
                end) : string * V).
  rewrite (mapM_returns _ prep).
  - simpl. eexists. split; [done|]. intros name.
    assert ((prep <$> py_items value).*1 = (py_items value).*1) as Hkeys.
    { unfold prep. apply (od_keys_fmap (fun name val =>
        match od_get name (child_blocks self) with
        | Some blk => block_get_prep_value blk val
        | None => val
        end)). }
    destruct (od_get name (py_items value)) as [val|] eqn:Hval; simpl.
    + assert (name ∈ (py_items value).*1) as Hin.
      { apply list_elem_of_fmap. exists (name, val). split; [done|].
        by apply od_get_Some_elem. }
      destruct (Hdecl name Hin) as [blk Hblk]. rewrite Hblk. simpl.
      apply py_dict_lookup_Some; [by rewrite Hkeys|].
      apply list_elem_of_fmap. exists (name, val). split.
      * simpl. by rewrite Hblk.
      * by apply od_get_Some_elem.
    + apply py_dict_lookup_None. rewrite Hkeys. by apply od_get_None.
  - intros [name val] Hin. simpl. unfold od_getitem.
    destruct (Hdecl name) as [blk Hblk].
    { apply list_elem_of_fmap. by exists (name, val). }
    by rewrite Hblk.
Qed.
End values_more.

Section values_extras.
Context {V Data Files Kwargs M : Type} `{!PyMapping V M}.
Implicit Types (self : @BaseStructBlock V Data Files Kwargs) (value : M).

Lemma declared_is_Some self name :
  name ∈ (child_blocks self).*1 → is_Some (od_get name (child_blocks self)).
Proof.
  intros Hin. destruct (od_get name (child_blocks self)) eqn:Hget; [by eexists|].
  by apply od_get_None in Hget.
Qed.

(** X8.  The struct value [to_python] returns holds a value for every
    declared field, the child's conversion of the input's value for that
    name or of the field's default, and for no other name: entries of the
    input under undeclared names are dropped. *)
Theorem to_python_holds_declared_fields self value name :
  NoDup (child_blocks self).*1 →
  py_get name (to_python self value)
  = (fun blk => block_to_python blk (py_get_default name value (meta_default blk)))
    <$> od_get name (child_blocks self).
Proof.
  intros Hnd.
  change (py_get name (to_python self value))
    with (od_get name (entries (to_python self value))).
  rewrite to_python_entries by done.
  apply (od_get_fmap (fun name blk =>
           block_to_python blk (py_get_default name value (meta_default blk)))).
Qed.

(** X9.  The struct value [value_from_datadict] returns holds, for every
    declared field and no other name, what the child block parses from the
    submitted data under the prefix [prefix-name]. *)
Theorem value_from_datadict_holds_declared_fields self (data : Data) (files : Files)
    prefix name :
  NoDup (child_blocks self).*1 →
  py_get name (value_from_datadict self data files prefix)
  = (fun blk => block_value_from_datadict blk data files (prefix +:+ "-" +:+ name))
    <$> od_get name (child_blocks self).
Proof.
  intros Hnd.
  change (py_get name (value_from_datadict self data files prefix))
    with (od_get name (entries (value_from_datadict self data files prefix))).
  rewrite value_from_datadict_entries by done.
  apply (od_get_fmap (fun name blk =>
           block_value_from_datadict blk data files (prefix +:+ "-" +:+ name))).
Qed.

(** X10.  When [get_prep_value] returns, on a value whose entries have
    distinct names, every entry names a child block and the returned dict
    maps each entry's name to that child block's prepared form of the
    entry's value; it has no other key. *)
Theorem get_prep_value_prepares_entries self value prepped :
  NoDup (py_items value).*1 →
  get_prep_value self value = Returns prepped →
  (∀ name val, (name, val) ∈ py_items value →
     ∃ blk, od_get name (child_blocks self) = Some blk
            ∧ prepped !! name = Some (block_get_prep_value blk val))
  ∧ (∀ name, name ∉ (py_items value).*1 → prepped !! name = None).
Proof.
  intros Hnd Hrun.
  destruct (get_prep_value_pairs self value prepped Hrun) as (pairs & -> & Hkeys & Hall).
  split.
  - intros name val [i Hi]%list_elem_of_lookup_1.
    destruct (Forall2_lookup_l _ _ _ _ _ Hall Hi) as ([name' val'] & Hpair & -> & blk & Hblk & ->).
    exists blk. split; [done|].
    apply py_dict_lookup_Some; [by rewrite Hkeys|].
    by eapply list_elem_of_lookup_2.
  - intros name Hname. apply py_dict_lookup_None. by rewrite Hkeys.
Qed.

(** X12.  Struct values built by [to_python] and [value_from_datadict] are
    safe inputs of [clean] and [get_prep_value]: none of the struct block's
    own name lookups fails on them.  [clean] returns, raises the aggregated
    [ValidationError], or passes on an exception other than
    [ValidationError] that a child block's [clean] raised; [get_prep_value]
    returns. *)
Theorem parsed_values_are_safe self value (data : Data) (files : Files) prefix :
  NoDup (child_blocks self).*1 →
  (∀ sv, sv = to_python self value ∨ sv = value_from_datadict self data files prefix →
     (∀ e, clean self sv = Raises e →
        (∃ errors, e = ValidationErr
                         (MkValidationError "Validation error in StructBlock" (Some errors)))
        ∨ (∃ name val blk, (name, val) ∈ entries sv
                           ∧ od_get name (child_blocks self) = Some blk
                           ∧ block_clean blk val = Raises e
                           ∧ ∀ ve, e ≠ ValidationErr ve))
     ∧ (∀ key, clean self sv = Raises (KeyError key) →
          ∃ name val blk, (name, val) ∈ entries sv
                          ∧ od_get name (child_blocks self) = Some blk
                          ∧ block_clean blk val = Raises (KeyError key))
     ∧ ((∀ name val blk e, (name, val) ∈ entries sv →
           od_get name (child_blocks self) = Some blk →
           block_clean blk val = Raises e → ∃ ve, e = ValidationErr ve) →
        ∀ e, clean self sv = Raises e →
             ∃ errors, e = ValidationErr
                             (MkValidationError "Validation error in StructBlock"
                                (Some errors)))
     ∧ ∃ prepped, get_prep_value self sv = Returns prepped).
Proof.
  intros Hnd.
  assert ((entries (to_python self value)).*1 = (child_blocks self).*1) as Hpy.
  { rewrite to_python_entries by done.
    apply (od_keys_fmap (fun name blk =>
             block_to_python blk (py_get_default name value (meta_default blk)))). }
  assert ((entries (value_from_datadict self data files prefix)).*1
          = (child_blocks self).*1) as Hdata.
  { rewrite value_from_datadict_entries by done.
    apply (od_keys_fmap (fun name blk =>
             block_value_from_datadict blk data files (prefix +:+ "-" +:+ name))). }
  intros sv Hsv.
  assert ((entries sv).*1 = (child_blocks self).*1) as Hkeys.
  { by destruct Hsv as [-> | ->]. }
  clear Hpy Hdata Hsv.
  assert (NoDup (py_items sv).*1) as Hnd'.
  { change (py_items sv) with (entries sv). by rewrite Hkeys. }
  assert (∀ name, name ∈ (py_items sv).*1 →
            is_Some (od_get name (child_blocks self))) as Hdecl.
  { intros name. change (py_items sv) with (entries sv). rewrite Hkeys.
    apply declared_is_Some. }
  split_and!.
  - intros e Hrun. exact (clean_declared self sv e Hdecl Hrun).
  - intros key Hrun.
    destruct (clean_declared self sv _ Hdecl Hrun)
      as [(errors & Heq)|(name & val & blk & ? & ? & ? & _)]; [done|].
    by exists name, val, blk.
  - intros Hve e Hrun.
    destruct (clean_declared self sv _ Hdecl Hrun)
      as [Hagg|(name & val & blk & Hmem & Hblk & Hraise & Hne)]; [done|].
    destruct (Hve name val blk e Hmem Hblk Hraise) as [ve ->]. by destruct (Hne ve).
  - destruct (get_prep_value_declared self sv Hnd' Hdecl) as (prepped & ? & _).
    by exists prepped.
Qed.

(** X13.  Preparing the struct value [to_python] returns gives a dict with
    exactly the declared fields, each mapped to the prepared form of the
    converted input value, or of the converted default when the input has no
    such field. *)
Theorem get_prep_value_of_to_python self value :
  NoDup (child_blocks self).*1 →
  ∃ prepped,
    get_prep_value self (to_python self value) = Returns prepped
    ∧ ∀ name, prepped !! name
              = (fun blk => block_get_prep_value blk
                              (block_to_python blk
                                 (py_get_default name value (meta_default blk))))
                <$> od_get name (child_blocks self).
Proof.
  intros Hnd.
  assert (entries (to_python self value)
          = (fun '(name, blk) =>
               (name, block_to_python blk (py_get_default name value (meta_default blk))))
            <$> child_blocks self) as Hentries by (by apply to_python_entries).
  assert ((entries (to_python self value)).*1 = (child_blocks self).*1) as Hkeys.
  { rewrite Hentries.
    apply (od_keys_fmap (fun name blk =>
             block_to_python blk (py_get_default name value (meta_default blk)))). }
  destruct (get_prep_value_declared self (to_python self value)) as (prepped & Hrun & Hlook).
  { change (py_items (to_python self value)) with (entries (to_python self value)).
    by rewrite Hkeys. }
  { intros name.
    change (py_items (to_python self value)) with (entries (to_python self value)).
    rewrite Hkeys. apply declared_is_Some. }
  exists prepped. split; [done|]. intros name. rewrite Hlook.
  change (py_items (to_python self value)) with (entries (to_python self value)).
  rewrite Hentries.
  rewrite (od_get_fmap (fun name blk =>
             block_to_python blk (py_get_default name value (meta_default blk)))).
  by destruct (od_get name (child_blocks self)).
Qed.
End values_extras.

Lemma mapM_ext_in {A B} (f g : A → outcome B) (l : list A) :
  (∀ x, x ∈ l → f x = g x) → mapM f l = mapM g l.
Proof.
  induction l as [|x l IH]; intros Hfg; [done|].
  change (mapM f (x :: l)) with (y ← f x; k ← mapM f l; mret (y :: k)).
  change (mapM g (x :: l)) with (y ← g x; k ← mapM g l; mret (y :: k)).
  rewrite (Hfg x) by left. rewrite IH; [done|].
  intros y Hy. apply Hfg. by right.
Qed.

Lemma list_fmap_ext_in {A B} (f g : A → B) (l : list A) :
  (∀ x, x ∈ l → f x = g x) → f <$> l = g <$> l.
Proof.
  intros Hfg. apply list_fmap_ext. intros i x Hi. apply Hfg.
  by eapply list_elem_of_lookup_2.
Qed.

Section two_values.
Context {V Data Files Kwargs M M' : Type} `{!PyMapping V M, !PyMapping V M'}.
Implicit Types (self : @BaseStructBlock V Data Files Kwargs).

(** X14.  On an empty value, such as the struct block's own default [{}],
    [clean] returns an empty dict whatever fields are declared,
    [get_prep_value] returns an empty dict, [to_python] holds every declared
    field converted from its default, and [get_searchable_content] is drawn
    from the defaults. *)
Theorem empty_value_behaviour self (value : M) :
  NoDup (child_blocks self).*1 →
  py_items value = [] →
  (∀ name, py_get name value = None) →
  clean self value = Returns ∅
  ∧ get_prep_value self value = Returns ∅
  ∧ entries (to_python self value)
    = ((fun '(name, blk) => (name, block_to_python blk (meta_default blk)))
       <$> child_blocks self)
  ∧ get_searchable_content self value
    = concat ((fun '(name, blk) => block_get_searchable_content blk (meta_default blk))
              <$> child_blocks self).
Proof.
  intros Hnd Hitems Hget. split_and!.
  - unfold clean. by rewrite Hitems.
  - unfold get_prep_value. by rewrite Hitems.
  - rewrite to_python_entries by done. apply list_fmap_ext_in.
    intros [name blk] _. unfold py_get_default. by rewrite Hget.
  - rewrite get_searchable_content_concat. f_equal. apply list_fmap_ext_in.
    intros [name blk] _. unfold py_get_default. by rewrite Hget.
Qed.

(** X15.  The outcome of [clean] does not depend on the order in which the
    value yields its entries, as long as they all name child blocks whose
    [clean] raises nothing but [ValidationError] on them: two values with
    the same entries in different orders are cleaned alike. *)
Theorem clean_order_independent self (value : M) (value' : M') :
  py_items value ≡ₚ py_items value' →
  NoDup (py_items value).*1 →
  (∀ name, name ∈ (py_items value).*1 → is_Some (od_get name (child_blocks self))) →
  (∀ name val blk e, (name, val) ∈ py_items value →
     od_get name (child_blocks self) = Some blk →
     block_clean blk val = Raises e → ∃ ve, e = ValidationErr ve) →
  clean self value = clean self value'.
Proof.
  intros Hperm Hnd Hdecl Hve.
  assert ((py_items value).*1 ≡ₚ (py_items value').*1) as Hkeys by (by rewrite Hperm).
  assert (NoDup (py_items value').*1) as Hnd' by (by rewrite <- Hkeys).
  assert (∀ name, name ∈ (py_items value').*1 →
            is_Some (od_get name (child_blocks self))) as Hdecl'.
  { intros name Hin. apply Hdecl. by rewrite Hkeys. }
  assert (∀ name val blk e, (name, val) ∈ py_items value' →
            od_get name (child_blocks self) = Some blk →
            block_clean blk val = Raises e → ∃ ve, e = ValidationErr ve) as Hve'.
  { intros name val blk e Hmem. apply Hve. by rewrite Hperm. }
  destruct (clean_loop_total self (py_items value) ∅ ∅ Hnd Hdecl Hve)
    as (r & e & Hrun & Hout & Hin).
  destruct (clean_loop_total self (py_items value') ∅ ∅ Hnd' Hdecl' Hve')
    as (r' & e' & Hrun' & Hout' & Hin').
  assert (∀ name, r !! name = r' !! name ∧ e !! name = e' !! name) as Hsame.
  { intros name. destruct (decide (name ∈ (py_items value).*1)) as [Hname|Hname].
    - destruct (Hdecl name Hname) as [blk Hblk].
      apply list_elem_of_fmap in Hname as ([n val] & -> & Hmem). simpl in *.
      assert ((n, val) ∈ py_items value') as Hmem' by (by rewrite <- Hperm).
      destruct (Hin n val blk Hmem Hblk) as [Hret Hfail].
      destruct (Hin' n val blk Hmem' Hblk) as [Hret' Hfail'].
      destruct (block_clean blk val) as [c|exn] eqn:Hclean.
      + destruct (Hret c eq_refl) as [-> ->]. by destruct (Hret' c eq_refl) as [-> ->].
      + destruct (Hve n val blk exn Hmem Hblk Hclean) as [ve ->].
        destruct (Hfail ve eq_refl) as [-> ->].
        by destruct (Hfail' ve eq_refl) as [-> ->].
    - destruct (Hout name Hname) as [-> ->].
      destruct (Hout' name) as [-> ->]; [by rewrite <- Hkeys|done]. }
  assert (r = r') as <- by (apply map_eq; intros name; apply Hsame).
  assert (e = e') as <- by (apply map_eq; intros name; apply Hsame).
  unfold clean. by rewrite Hrun, Hrun'.
Qed.

(** X16.  [to_python], [get_searchable_content] and [render_form] read the
    value only through the declared names: two values, of whatever mapping
    types, that agree on every declared name give the same results, so
    entries under other names are ignored. *)
Theorem get_operations_read_declared_names self (value : M) (value' : M') :
  (∀ name, name ∈ (child_blocks self).*1 → py_get name value = py_get name value') →
  to_python self value = to_python self value'
  ∧ get_searchable_content self value = get_searchable_content self value'
  ∧ ∀ escape prefix errors,
      render_form escape self value prefix errors
      = render_form escape self value' prefix errors.
Proof.
  intros Hsame.
  assert (∀ name (blk : @Block V Data Files), (name, blk) ∈ child_blocks self →
            py_get_default name value (meta_default blk)
            = py_get_default name value' (meta_default blk)) as Hdef.
  { intros name blk Hin. unfold py_get_default. rewrite Hsame; [done|].
    apply list_elem_of_fmap. by exists (name, blk). }
  split_and!.
  - unfold to_python. f_equal. apply list_fmap_ext_in.
    intros [name blk] Hin. by rewrite Hdef.
  - rewrite !get_searchable_content_concat. f_equal. apply list_fmap_ext_in.
    intros [name blk] Hin. by rewrite Hdef.
  - intros escape prefix errors. unfold render_form.
    destruct (match errors with
              | Some ((e :: _) as errs) =>
                  if decide (1 < length errs)
                  then Raises (TypeError
                         "StructBlock.render_form unexpectedly received multiple errors")
                  else Returns (ve_params e)
              | _ => Returns (Some ∅)
              end) as [error_dict|]; [|done].
    simpl. unfold child_renderings.
    rewrite (mapM_ext_in _ (fun '(name, blk) =>
               errors ← error_dict_get error_dict name;
               mret (block_render_form blk
                       (py_get_default name value' (meta_default blk))
                       (prefix +:+ "-" +:+ name) errors))); [done|].
    intros [name blk] Hin. by rewrite Hdef.
Qed.
End two_values.

Section stored_values.
Context {V Data Files Kwargs : Type}.
Implicit Types (self : @BaseStructBlock V Data Files Kwargs).

(** X17.  A struct value that holds exactly the declared fields, in order,
    survives storage: when each child block's [to_python] undoes its
    [get_prep_value] on the value held, [to_python] of the prepared dict is
    the struct value again. *)
Theorem stored_value_reloads self (sv : @StructValue V Data Files Kwargs) :
  block sv = self →
  bound_cache sv = None →
  NoDup (child_blocks self).*1 →
  (entries sv).*1 = (child_blocks self).*1 →
  (∀ name blk val, od_get name (child_blocks self) = Some blk →
     od_get name (entries sv) = Some val →
     block_to_python blk (block_get_prep_value blk val) = val) →
  ∃ prepped,
    get_prep_value self sv = Returns prepped
    ∧ to_python self prepped = sv.
Proof.
  intros Hblock Hcache Hnd Hkeys Hlaw.
  assert (NoDup (entries sv).*1) as Hnd' by (by rewrite Hkeys).
  destruct (get_prep_value_declared self sv) as (prepped & Hrun & Hlook).
  { done. }
  { intros name. simpl. rewrite Hkeys. intros Hin.
    destruct (od_get name (child_blocks self)) eqn:Hget; [by eexists|].
    by apply od_get_None in Hget. }
  exists prepped. split; [done|].
  destruct sv as [blk0 ents cache]. simpl in *. subst blk0 cache.
  unfold to_python, mkStructValue. f_equal.
  rewrite od_of_list_NoDup.
  2:{ by rewrite (od_keys_fmap (fun name (blk : Block) =>
                    block_to_python blk (py_get_default name prepped (meta_default blk)))). }
  apply list_eq. intros i. rewrite list_lookup_fmap.
  assert (ents.*1 !! i = (child_blocks self).*1 !! i) as Hi by (by rewrite Hkeys).
  rewrite !list_lookup_fmap in Hi.
  destruct (child_blocks self !! i) as [[name blk]|] eqn:Hcb;
    destruct (ents !! i) as [[name' val]|] eqn:Hent; simplify_eq/=; [|done].
  assert (od_get name ents = Some val) as Hval by (by eapply od_get_lookup).
  assert (od_get name (child_blocks self) = Some blk) as Hblk by (by eapply od_get_lookup).
  unfold py_get_default. simpl. rewrite Hlook. simpl. rewrite Hval. simpl.
  rewrite Hblk. simpl. by rewrite (Hlaw name blk val).
Qed.
End stored_values.

Section clean_outcomes.
Context {V Data Files Kwargs M : Type} `{!PyMapping V M}.
Implicit Types (self : @BaseStructBlock V Data Files Kwargs) (value : M).

(** Names gain an entry in [result] or in [errors] as the loop visits
    them, and only so. *)
Lemma clean_loop_names self (items : list (string * V)) result errors result' errors' :
  clean_loop self items result errors = Returns (result', errors') →
  (∀ name, is_Some (errors !! name) → is_Some (errors' !! name))
  ∧ (∀ name, is_Some (result' !! name) →
       is_Some (result !! name) ∨ name ∈ items.*1)
  ∧ (∀ name, name ∈ items.*1 →
       is_Some (result' !! name) ∨ is_Some (errors' !! name))
  ∧ (∀ name, is_Some (result !! name) → is_Some (result' !! name)).
Proof.
  revert result errors.
  induction items as [|[n val] items IH]; intros result errors Hrun.
  - simpl in Hrun. injection Hrun as <- <-. split_and!; [done|by left| |done].
    intros name Hin. by apply elem_of_nil in Hin.
  - rewrite clean_loop_cons in Hrun.
    destruct (od_get n (child_blocks self)) as [blk|]; [|done].
    destruct (block_clean blk val) as [c|[msg|key|msg|e]]; try done.
    + destruct (IH _ _ Hrun) as (Herr & Hres & Hall & Hkeep). split_and!.
      * done.
      * intros name Hsome. destruct (Hres name Hsome) as [Hins|Hin].
        -- destruct (decide (name = n)) as [->|Hne]; [right; left|].
           rewrite lookup_insert_ne in Hins by done. by left.
        -- right. by right.
      * intros name [->|Hin]%elem_of_cons; [|by apply Hall].
        left. apply Hkeep. rewrite lookup_insert_eq. by eexists.
      * intros name Hsome. apply Hkeep.
        destruct (decide (name = n)) as [->|Hne];
          [rewrite lookup_insert_eq; by eexists|by rewrite lookup_insert_ne].
    + destruct (IH _ _ Hrun) as (Herr & Hres & Hall & Hkeep). split_and!.
      * intros name Hsome. apply Herr.
        destruct (decide (name = n)) as [->|Hne];
          [rewrite lookup_insert_eq; by eexists|by rewrite lookup_insert_ne].
      * intros name Hsome. destruct (Hres name Hsome) as [Hins|Hin]; [by left|].
        right. by right.
      * intros name [->|Hin]%elem_of_cons; [|by apply Hall].
        right. apply Herr. rewrite lookup_insert_eq. by eexists.
      * done.
Qed.

(** X18.  [clean] raises nothing but these: [KeyError] for a name of the
    value that is not a child block; the aggregated [ValidationError],
    whose message is fixed and whose [params] is a dict with at least one
    entry; and whatever exception other than [ValidationError] the [clean]
    of an entry's child block raised, passed on as it is. *)
Theorem clean_raises_only self value e :
  clean self value = Raises e →
  (∃ key, e = KeyError key ∧ key ∈ (py_items value).*1
          ∧ od_get key (child_blocks self) = None)
  ∨ (∃ errors, e = ValidationErr
                     (MkValidationError "Validation error in StructBlock" (Some errors))
               ∧ errors ≠ ∅)
  ∨ (∃ name val blk, (name, val) ∈ py_items value
                     ∧ od_get name (child_blocks self) = Some blk
                     ∧ block_clean blk val = Raises e
                     ∧ ∀ ve, e ≠ ValidationErr ve).
Proof.
  unfold clean. intros Hrun.
  destruct (clean_loop self (py_items value) ∅ ∅) as [[result errors]|e'] eqn:Hloop;
    simpl in Hrun.
  - right. left. destruct (dict_truthy errors) eqn:Htruthy; [|done].
    injection Hrun as <-. exists errors. split; [done|].
    intros Hempty. apply dict_truthy_false in Hempty. congruence.
  - injection Hrun as <-.
    destruct (clean_loop_raises self _ _ _ _ Hloop) as [Hkey|Hchild];
      [by left|by right; right].
Qed.

(** X19.  When [clean] returns, no entry failed and none was skipped: the
    returned dict has a key for exactly the names of the value's entries. *)
Theorem clean_returns_every_name self value result :
  clean self value = Returns result →
  ∀ name, is_Some (result !! name) ↔ name ∈ (py_items value).*1.
Proof.
  unfold clean. intros Hrun name.
  destruct (clean_loop self (py_items value) ∅ ∅) as [[result' errors]|e'] eqn:Hloop;
    simpl in Hrun; [|done].
  destruct (dict_truthy errors) eqn:Htruthy; [done|].
  injection Hrun as <-. apply dict_truthy_false in Htruthy. subst errors.
  destruct (clean_loop_names _ _ _ _ _ _ Hloop) as (_ & Hres & Hall & _). split.
  - intros Hsome. destruct (Hres name Hsome) as [Hempty|Hin]; [|done].
    rewrite lookup_empty in Hempty. by destruct Hempty.
  - intros Hin. destruct (Hall name Hin) as [Hsome|Hempty]; [done|].
    rewrite lookup_empty in Hempty. by destruct Hempty.
Qed.
End clean_outcomes.

Section new_fields.
Context {V Data Files Kwargs : Type}.
Variable set_name : string → @Block V Data Files → @Block V Data Files.
Variable label_of_kwargs : Kwargs → string.

Abbreviation Blk := (@Block V Data Files).
Abbreviation merge := (foldl (fun (d : odict Blk) '(n, b) => od_set n (set_name n b) d)).

(** X20.  Supplemental fields whose names are new and distinct are appended
    after the class's declared fields, in the order given, each after
    [set_name]; the declared fields come first, unchanged. *)
Theorem init_appends_new_fields cls pairs kwargs (h : list (odict Blk)) base :
  h !! base_blocks cls = Some base →
  NoDup (base ++ pairs).*1 →
  ∃ self h',
    __init__ set_name label_of_kwargs cls (Some pairs) kwargs h = Some (self, h')
    ∧ child_blocks self = base ++ ((fun '(n, b) => (n, set_name n b)) <$> pairs)
    ∧ (child_blocks self).*1 = base.*1 ++ pairs.*1.
Proof.
  intros Hbase Hnd.
  destruct (init_spec set_name label_of_kwargs cls (Some pairs) kwargs h base Hbase)
    as (self & h' & Hinit & Hch & _).
  simpl in Hch. rewrite (merge_fresh set_name) in Hch by done.
  exists self, h'. split_and!; [done|done|].
  rewrite Hch, fmap_app. f_equal.
  apply (od_keys_fmap (fun n b => set_name n b)).
Qed.
End new_fields.

(** ** The extra properties at concrete inputs *)

Lemma render_form_without_errors_witness :
  (Some [] = (None : option ErrorList) ∨ Some [] = Some ([] : ErrorList))
  ∧ render_form Examples.escape Examples.ab_block
      ([("a", Examples.PyStr "x")] : odict Examples.pyval) "p" (Some [])
    = Returns (SafeText
        ("<div class=" +:+ String (Ascii.ascii_of_nat 34) EmptyString +:+ "struct-block"
         +:+ String (Ascii.ascii_of_nat 34) EmptyString
         +:+ "><ul><li><input name='p-a' value='x'>-</li>"
         +:+ String (Ascii.ascii_of_nat 10) EmptyString
         +:+ "<li><input type='number' name='p-b'>-</li></ul></div>")).
Proof.
  split; [by right|].
  rewrite (render_form_without_errors Examples.escape Examples.ab_block
             ([("a", Examples.PyStr "x")] : odict Examples.pyval) "p" (Some [])
             (or_intror eq_refl)).
  vm_compute. reflexivity.
Defined.

Lemma render_form_error_without_params_witness :
  child_blocks Examples.ab_block ≠ []
  ∧ render_form Examples.escape Examples.ab_block (∅ : gmap string Examples.pyval) "p"
      (Some [MkValidationError "Enter a valid value." None])
    = Raises (AttributeError "'NoneType' object has no attribute 'get'").
Proof.
  assert (child_blocks Examples.ab_block ≠ []) as Hne by discriminate.
  split; [exact Hne|].
  exact (proj1 (render_form_error_without_params Examples.escape Examples.ab_block
                  (∅ : gmap string Examples.pyval) "p" "Enter a valid value.") Hne).
Defined.

Lemma to_python_holds_declared_fields_witness :
  let value : gmap string Examples.pyval :=
    {[ "b" := Examples.PyInt (-3); "junk" := Examples.PyInt 1 ]} in
  NoDup (child_blocks Examples.ab_block).*1
  ∧ py_get "b" (to_python Examples.ab_block value) = Some (Examples.PyInt 3)
  ∧ py_get "junk" (to_python Examples.ab_block value) = None.
Proof.
  intros value.
  assert (NoDup (child_blocks Examples.ab_block).*1) as Hnd by compute_done.
  split; [exact Hnd|]. split.
  - exact (to_python_holds_declared_fields Examples.ab_block value "b" Hnd).
  - exact (to_python_holds_declared_fields Examples.ab_block value "junk" Hnd).
Defined.

Lemma value_from_datadict_holds_declared_fields_witness :
  let data : Examples.Data := {[ "page-a" := "hello" ]} in
  NoDup (child_blocks Examples.ab_block).*1
  ∧ py_get "a" (value_from_datadict Examples.ab_block data () "page")
    = Some (Examples.PyStr "hello").
Proof.
  intros data.
  assert (NoDup (child_blocks Examples.ab_block).*1) as Hnd by compute_done.
  split; [exact Hnd|].
  exact (value_from_datadict_holds_declared_fields Examples.ab_block data () "page" "a" Hnd).
Defined.

Lemma get_prep_value_prepares_entries_witness :
  let value : odict Examples.pyval := [("a", Examples.PyStr "x"); ("b", Examples.PyInt (-1))] in
  let prepped := py_dict [("a", Examples.PyStr "x"); ("b", Examples.PyInt (-1))] in
  NoDup (py_items value).*1
  ∧ get_prep_value Examples.ab_block value = Returns prepped
  ∧ (∃ blk, od_get "b" (child_blocks Examples.ab_block) = Some blk
            ∧ prepped !! "b" = Some (block_get_prep_value blk (Examples.PyInt (-1))))
  ∧ prepped !! "c" = None.
Proof.
  intros value prepped.
  assert (NoDup (py_items value).*1) as Hnd by compute_done.
  assert (get_prep_value Examples.ab_block value = Returns prepped) as Hrun
    by reflexivity.
  split; [exact Hnd|]. split; [exact Hrun|].
  destruct (get_prep_value_prepares_entries Examples.ab_block value prepped Hnd Hrun)
    as (Hin & Hout).
  split.
  - apply (Hin "b" (Examples.PyInt (-1))). right; left.
  - apply Hout. compute_done.
Defined.

Lemma parsed_values_are_safe_witness :
  let value : gmap string Examples.pyval := {[ "zzz" := Examples.PyInt 1 ]} in
  NoDup (child_blocks Examples.ab_block).*1
  ∧ (∃ prepped,
       get_prep_value Examples.ab_block (to_python Examples.ab_block value) = Returns prepped)
  ∧ ∀ e, clean Examples.ab_block (to_python Examples.ab_block value) = Raises e →
         (∃ errors, e = ValidationErr
                          (MkValidationError "Validation error in StructBlock" (Some errors)))
         ∨ (∃ name val blk, (name, val) ∈ entries (to_python Examples.ab_block value)
                            ∧ od_get name (child_blocks Examples.ab_block) = Some blk
                            ∧ block_clean blk val = Raises e
                            ∧ ∀ ve, e ≠ ValidationErr ve).
Proof.
  intros value.
  assert (NoDup (child_blocks Examples.ab_block).*1) as Hnd by compute_done.
  split; [exact Hnd|].
  destruct (parsed_values_are_safe Examples.ab_block value (∅ : Examples.Data) () "page"
              Hnd (to_python Examples.ab_block value) (or_introl eq_refl))
    as (Hclean & _ & _ & Hprep).
  split; [exact Hprep|exact Hclean].
Defined.

Lemma get_prep_value_of_to_python_witness :
  let value : gmap string Examples.pyval := {[ "b" := Examples.PyInt (-3) ]} in
  NoDup (child_blocks Examples.ab_block).*1
  ∧ ∃ prepped,
      get_prep_value Examples.ab_block (to_python Examples.ab_block value) = Returns prepped
      ∧ prepped !! "a" = Some (Examples.PyStr "untitled")
      ∧ prepped !! "b" = Some (Examples.PyInt 3).
Proof.
  intros value.
  assert (NoDup (child_blocks Examples.ab_block).*1) as Hnd by compute_done.
  split; [exact Hnd|].
  destruct (get_prep_value_of_to_python Examples.ab_block value Hnd)
    as (prepped & Hrun & Hlook).
  exists prepped. split; [exact Hrun|]. split; apply Hlook.
Defined.

Lemma empty_value_behaviour_witness :
  let value : gmap string Examples.pyval := ∅ in
  NoDup (child_blocks Examples.ab_block).*1
  ∧ py_items value = []
  ∧ (∀ name, py_get name value = None)
  ∧ clean Examples.ab_block value = Returns ∅
  ∧ entries (to_python Examples.ab_block value)
    = [("a", Examples.PyStr "untitled"); ("b", Examples.PyInt 7)].
Proof.
  intros value.
  assert (NoDup (child_blocks Examples.ab_block).*1) as Hnd by compute_done.
  assert (py_items value = []) as Hitems by reflexivity.
  assert (∀ name, py_get name value = None) as Hget by (intros name; apply lookup_empty).
  split; [exact Hnd|]. split; [exact Hitems|]. split; [exact Hget|].
  destruct (empty_value_behaviour Examples.ab_block value Hnd Hitems Hget)
    as (Hclean & _ & Hpy & _).
  split; [exact Hclean|exact Hpy].
Defined.

Lemma clean_order_independent_witness :
  let value : odict Examples.pyval := [("a", Examples.PyStr "x"); ("b", Examples.PyInt (-1))] in
  let value' : odict Examples.pyval := [("b", Examples.PyInt (-1)); ("a", Examples.PyStr "x")] in
  py_items value ≡ₚ py_items value'
  ∧ NoDup (py_items value).*1
  ∧ (∀ name, name ∈ (py_items value).*1 →
       is_Some (od_get name (child_blocks Examples.ab_block)))
  ∧ (∀ name val blk e, (name, val) ∈ py_items value →
       od_get name (child_blocks Examples.ab_block) = Some blk →
       block_clean blk val = Raises e → ∃ ve, e = ValidationErr ve)
  ∧ clean Examples.ab_block value = clean Examples.ab_block value'.
Proof.
  intros value value'.
  assert (py_items value ≡ₚ py_items value') as Hperm by apply perm_swap.
  assert (NoDup (py_items value).*1) as Hnd by compute_done.
  assert (∀ name, name ∈ (py_items value).*1 →
            is_Some (od_get name (child_blocks Examples.ab_block))) as Hdecl.
  { intros name Hname. simpl in Hname.
    apply elem_of_cons in Hname as [->|Hname]; [by eexists|].
    apply list_elem_of_singleton in Hname as ->. by eexists. }
  assert (∀ name val blk e, (name, val) ∈ py_items value →
            od_get name (child_blocks Examples.ab_block) = Some blk →
            block_clean blk val = Raises e → ∃ ve, e = ValidationErr ve) as Hve.
  { intros name val blk e Hmem Hblk Hraise.
    apply elem_of_cons in Hmem as [Heq|Hmem].
    - injection Heq as -> ->. injection Hblk as <-. discriminate Hraise.
    - apply list_elem_of_singleton in Hmem. injection Hmem as -> ->.
      injection Hblk as <-. injection Hraise as <-. by eexists. }
  split; [exact Hperm|]. split; [exact Hnd|]. split; [exact Hdecl|]. split; [exact Hve|].
  exact (clean_order_independent Examples.ab_block value value' Hperm Hnd Hdecl Hve).
Defined.

Lemma get_operations_read_declared_names_witness :
  let value : gmap string Examples.pyval := {[ "a" := Examples.PyStr "x" ]} in
  let value' : odict Examples.pyval := [("a", Examples.PyStr "x"); ("junk", Examples.PyInt 1)] in
  (∀ name, name ∈ (child_blocks Examples.ab_block).*1 →
     py_get name value = py_get name value')
  ∧ to_python Examples.ab_block value = to_python Examples.ab_block value'
  ∧ get_searchable_content Examples.ab_block value
    = get_searchable_content Examples.ab_block value'.
Proof.
  intros value value'.
  assert (∀ name, name ∈ (child_blocks Examples.ab_block).*1 →
            py_get name value = py_get name value') as Hsame.
  { intros name Hname. simpl in Hname.
    apply elem_of_cons in Hname as [->|Hname]; [reflexivity|].
    apply list_elem_of_singleton in Hname as ->. reflexivity. }
  split; [exact Hsame|].
  destruct (get_operations_read_declared_names Examples.ab_block value value' Hsame)
    as (Hpy & Hsearch & _).
  split; [exact Hpy|exact Hsearch].
Defined.

Lemma stored_value_reloads_witness :
  let sv := {| block := Examples.ab_block;
               entries := [("a", Examples.PyStr "x"); ("b", Examples.PyInt 3)];
               bound_cache := None |} in
  NoDup (child_blocks Examples.ab_block).*1
  ∧ (entries sv).*1 = (child_blocks Examples.ab_block).*1
  ∧ ∃ prepped,
      get_prep_value Examples.ab_block sv = Returns prepped
      ∧ to_python Examples.ab_block prepped = sv.
Proof.
  intros sv.
  assert (NoDup (child_blocks Examples.ab_block).*1) as Hnd by compute_done.
  split; [exact Hnd|]. split; [reflexivity|].
  apply (stored_value_reloads Examples.ab_block sv eq_refl eq_refl Hnd eq_refl).
  intros name blk val Hblk Hval. simpl in Hblk, Hval.
  destruct (decide (name = "a")) as [->|Ha].
  - injection Hblk as <-. injection Hval as <-. reflexivity.
  - destruct (decide (name = "b")) as [->|Hb]; [|discriminate Hblk].
    injection Hblk as <-. injection Hval as <-. reflexivity.
Defined.

Lemma clean_raises_only_witness :
  let nested : odict Examples.pyval :=
    [("title", Examples.PyStr "t");
     ("inner", Examples.PyDict [("zzz", Examples.PyInt 1)])] in
  clean Examples.outer_block nested = Raises (KeyError "zzz")
  ∧ ("zzz" ∉ (py_items nested).*1)
  ∧ ∃ name val blk, (name, val) ∈ py_items nested
                    ∧ od_get name (child_blocks Examples.outer_block) = Some blk
                    ∧ block_clean blk val = Raises (KeyError "zzz").
Proof.
  intros nested.
  assert (clean Examples.outer_block nested = Raises (KeyError "zzz")) as Hraise
    by reflexivity.
  assert ("zzz" ∉ (py_items nested).*1) as Hnot by compute_done.
  split; [exact Hraise|]. split; [exact Hnot|].
  destruct (clean_raises_only Examples.outer_block nested _ Hraise)
    as [(key & Hkey & Hin & _)|[(errors & Herr & _)|(name & val & blk & Hmem & Hblk & Hchild & _)]].
  - injection Hkey as <-. destruct (Hnot Hin).
  - discriminate Herr.
  - exists name, val, blk. split; [exact Hmem|]. split; [exact Hblk|exact Hchild].
Defined.

Lemma clean_returns_every_name_witness :
  let value : odict Examples.pyval := [("a", Examples.PyStr "x"); ("b", Examples.PyInt 1)] in
  clean Examples.ab_block value
  = Returns (py_dict [("a", Examples.PyStr "x"); ("b", Examples.PyInt 1)])
  ∧ (is_Some (py_dict [("a", Examples.PyStr "x"); ("b", Examples.PyInt 1)] !! "b")
     ↔ "b" ∈ (py_items value).*1).
Proof.
  intros value.
  assert (clean Examples.ab_block value
          = Returns (py_dict [("a", Examples.PyStr "x"); ("b", Examples.PyInt 1)]))
    as Hrun by reflexivity.
  split; [exact Hrun|].
  exact (clean_returns_every_name Examples.ab_block value _ Hrun "b").
Defined.

Lemma init_appends_new_fields_witness :
  Examples.person_store !! base_blocks Examples.PersonBlock
    = Some [("title", Examples.char_block); ("body", Examples.char_block)]
  ∧ NoDup ["title"; "body"; "age"; "email"]
  ∧ ∃ self h',
      __init__ Examples.set_name Examples.label_of_kwargs Examples.PersonBlock
        (Some [("age", Examples.int_block); ("email", Examples.char_block)]) []
        Examples.person_store = Some (self, h')
      ∧ (child_blocks self).*1 = ["title"; "body"; "age"; "email"].
Proof.
  assert (NoDup ["title"; "body"; "age"; "email"]) as Hnd by compute_done.
  split; [reflexivity|]. split; [exact Hnd|].
  destruct (init_appends_new_fields Examples.set_name Examples.label_of_kwargs
              Examples.PersonBlock
              [("age", Examples.int_block); ("email", Examples.char_block)] []
              Examples.person_store
              [("title", Examples.char_block); ("body", Examples.char_block)]
              eq_refl Hnd)
    as (self & h' & Hinit & _ & Hkeys).
  exists self, h'. split; [exact Hinit|exact Hkeys].
Defined.
